(** * strm-cli: the module registration and code-generation pipeline

    A shallow embedding of [src/utils/cliUtils.ts]: the module descriptor
    builder, the registry file, the route table rebuilder and the
    [createSTRMModule] pipeline, over a small model of the Node file system
    and clock.

    Conventions of the model.
    - Strings are ASCII; [toUpperCase]/[toLowerCase] act on the letters a-z
      and A-Z (module names are identifiers).
    - A JavaScript object used as a dictionary is an association list in
      own-property order with unique keys; assigning to a key keeps an
      existing key's position and appends a new key.  (Keys are ordinary
      property names: not array indices, which JavaScript orders first.)
    - The result of [JSON.parse] is cast, never checked, by the source: a
      registry file may hold [null] under a module key, which the source
      guards against with [if (module)]; such an entry is [None] here.
      Registry files of any other shape than the declared one are not
      modelled.
    - File paths are lists of segments below [process.cwd()], one segment
      per module name; the working directory itself is never a target.
    - An asynchronous function that catches what it awaits is a function
      from the world to its outcome and the world it leaves; console output
      is left out. *)

From stdpp Require Import gmap strings list fin_maps.
From Stdlib Require Import Ascii ZArith.

Open Scope Z_scope.

(** ** JavaScript string primitives *)

Module JS.

Definition isLowerLetter (c : ascii) : bool :=
  let n := nat_of_ascii c in (97 <=? n)%nat && (n <=? 122)%nat.

Definition isUpperLetter (c : ascii) : bool :=
  let n := nat_of_ascii c in (65 <=? n)%nat && (n <=? 90)%nat.

Definition toUpperCaseChar (c : ascii) : ascii :=
  if isLowerLetter c then ascii_of_nat (nat_of_ascii c - 32) else c.

Definition toLowerCaseChar (c : ascii) : ascii :=
  if isUpperLetter c then ascii_of_nat (nat_of_ascii c + 32) else c.

(** [s.toLowerCase()] *)
Fixpoint toLowerCase (s : string) : string :=
  match s with
  | EmptyString => EmptyString
  | String c s' => String (toLowerCaseChar c) (toLowerCase s')
  end.

(** [s.toUpperCase()] *)
Fixpoint toUpperCase (s : string) : string :=
  match s with
  | EmptyString => EmptyString
  | String c s' => String (toUpperCaseChar c) (toUpperCase s')
  end.

(** [s.charAt(0)]: the first character as a string, empty on the empty string. *)
Definition charAt0 (s : string) : string :=
  match s with
  | EmptyString => EmptyString
  | String c _ => String c EmptyString
  end.

(** [s.slice(1)] *)
Definition slice1 (s : string) : string :=
  match s with
  | EmptyString => EmptyString
  | String _ s' => s'
  end.

(** [s.split(sep)] for a one-character separator: never the empty list. *)
Fixpoint split (sep : ascii) (s : string) : list string :=
  match s with
  | EmptyString => [EmptyString]
  | String c s' =>
      if Ascii.eqb c sep then EmptyString :: split sep s'
      else match split sep s' with
           | w :: ws => String c w :: ws
           | [] => [String c EmptyString]
           end
  end.

(** [words.join('')] *)
Fixpoint join (words : list string) : string :=
  match words with
  | [] => EmptyString
  | w :: ws => w +:+ join ws
  end.

(** [s.includes(needle)] *)
Fixpoint includes (needle s : string) : bool :=
  String.prefix needle s ||
  match s with
  | EmptyString => false
  | String _ s' => includes needle s'
  end.

(** Truthiness of a string: only the empty string is falsy. *)
Definition truthy (s : string) : bool :=
  match s with
  | EmptyString => false
  | String _ _ => true
  end.

(** Own properties of an object, in property order. *)
Definition object (V : Type) : Type := list (string * V).

(** [Object.keys(o)] *)
Definition keys {V} (o : object V) : list string := map fst o.

(** [o[k]]: [None] is [undefined]. *)
Fixpoint get {V} (k : string) (o : object V) : option V :=
  match o with
  | [] => None
  | (k', v) :: o' => if String.eqb k k' then Some v else get k o'
  end.

(** [o[k] = v] *)
Fixpoint set {V} (k : string) (v : V) (o : object V) : object V :=
  match o with
  | [] => [(k, v)]
  | (k', v') :: o' =>
      if String.eqb k k' then (k, v) :: o' else (k', v') :: set k v o'
  end.

(** [xs.forEach((x, index) => ...)] with the state the callback updates. *)
Fixpoint forEach {A S} (f : S -> A -> Z -> S) (xs : list A) (index : Z) (s : S) : S :=
  match xs with
  | [] => s
  | x :: xs' => forEach f xs' (index + 1) (f s x index)
  end.

End JS.

(** ** Data model ([src/@types/strm.d.ts]) *)

Record ScaffoldOutput := {
  success : bool;
  message : option string
}.

Inductive FrontendOpt := react | vue | lit.

Record STRMConfigFile := {
  viteHost : string;
  vitePort : Z;
  frontend : FrontendOpt;
  frontendBasePath : string;
  frontendEntryPoint : string;
  frontendExtensions : list string
}.

Record STRMFERoute := {
  path : string;
  componentName : string;
  componentPath : string
}.

Record STRMController := {
  controllerName : string;
  endpointBase : string;
  modelName : string
}.

Record STRMModule := {
  controller : STRMController;
  controllerOnly : bool;
  pages : list STRMFERoute
}.

Record STRMModulesFile := {
  appId : string;
  lastUpdated : string;
  modules : JS.object (option STRMModule)
}.

Module Args.
Record t := {
  name : string;
  controllerOnly : option bool;
  plural : option string
}.
End Args.
Abbreviation STRMModuleArgs := Args.t.

(** ** The world: file system, clock and locale data *)

(** A path below [process.cwd()], one string per segment. *)
Abbreviation fspath := (list string).

(** What a file holds.  [ModulesJson r rest] is the text
    [JSON.stringify(r, undefined, 2)] followed by [rest] (text appended
    since), and [JSON.parse] of the former gives [r] back; [Text s] is any
    other text, which as a registry file does not load: [JSON.parse] throws
    on it or yields a falsy value, and the callers treat both alike. *)
Inductive fileData :=
| Text (s : string)
| ModulesJson (r : STRMModulesFile) (rest : string).

Record mode := {
  readable : bool;
  writable : bool
}.

Inductive node :=
| File (m : mode) (d : fileData)
| Dir.

(** A [Date] object, by the two renderings the source asks of it. *)
Record JSDate := {
  toISOString : string;
  toLocaleDateString : string
}.

(** [clock n] is what the [n]-th evaluation of [new Date()] yields; [reads]
    counts the evaluations so far.  [STORM_BRANDED] is
    [LocaleManager.getInstance().getLocaleData().misc.STORM_BRANDED]. *)
Record World := {
  fs : gmap fspath node;
  clock : nat -> JSDate;
  reads : nat;
  STORM_BRANDED : string
}.

Definition withFs (w : World) (f : gmap fspath node) : World :=
  {| fs := f; clock := clock w; reads := reads w; STORM_BRANDED := STORM_BRANDED w |}.

(** [new Date()] *)
Definition newDate (w : World) : JSDate * World :=
  (clock w (reads w),
   {| fs := fs w; clock := clock w; reads := S (reads w); STORM_BRANDED := STORM_BRANDED w |}).

Definition nl : string := String "010"%char EmptyString.
Definition tab : string := String "009"%char EmptyString.
Definition dq : string := String "034"%char EmptyString.

Fixpoint showPath (p : fspath) : string :=
  match p with
  | [] => EmptyString
  | [x] => x
  | x :: p' => x +:+ "/" +:+ showPath p'
  end.

(** [e.message] of a Node file-system error. *)
Definition fsError (code syscall : string) (p : fspath) : string :=
  code +:+ ", " +:+ syscall +:+ " '" +:+ showPath p +:+ "'".

Definition defaultMode : mode := {| readable := true; writable := true |}.

(** The directory a new entry at [p] goes into: [inr tt] when it exists. *)
Definition parentDir (syscall : string) (p : fspath) (w : World) : string + unit :=
  match removelast p with
  | [] => inr tt
  | d => match fs w !! d with
         | Some Dir => inr tt
         | Some (File _ _) => inl (fsError "ENOTDIR: not a directory" syscall p)
         | None => inl (fsError "ENOENT: no such file or directory" syscall p)
         end
  end.

(** [readFile(p, { encoding: 'utf-8' })] *)
Definition readFile (p : fspath) (w : World) : string + fileData :=
  match fs w !! p with
  | None => inl (fsError "ENOENT: no such file or directory" "open" p)
  | Some Dir => inl "EISDIR: illegal operation on a directory, read"
  | Some (File m d) =>
      if readable m then inr d
      else inl (fsError "EACCES: permission denied" "open" p)
  end.

(** [writeFile(p, d)]: replaces the contents, creating the file if needed;
    a failed write leaves the file system as it was. *)
Definition writeFile (p : fspath) (d : fileData) (w : World) : string + World :=
  match fs w !! p with
  | Some Dir => inl (fsError "EISDIR: illegal operation on a directory" "open" p)
  | Some (File m _) =>
      if writable m then inr (withFs w (<[p := File m d]> (fs w)))
      else inl (fsError "EACCES: permission denied" "open" p)
  | None =>
      match parentDir "open" p w with
      | inl e => inl e
      | inr _ => inr (withFs w (<[p := File defaultMode d]> (fs w)))
      end
  end.

Definition appendData (d : fileData) (s : string) : fileData :=
  match d with
  | Text t => Text (t +:+ s)
  | ModulesJson r rest => ModulesJson r (rest +:+ s)
  end.

(** [appendFile(p, s)] *)
Definition appendFile (p : fspath) (s : string) (w : World) : string + World :=
  match fs w !! p with
  | Some Dir => inl (fsError "EISDIR: illegal operation on a directory" "open" p)
  | Some (File m d) =>
      if writable m then inr (withFs w (<[p := File m (appendData d s)]> (fs w)))
      else inl (fsError "EACCES: permission denied" "open" p)
  | None =>
      match parentDir "open" p w with
      | inl e => inl e
      | inr _ => inr (withFs w (<[p := File defaultMode (Text s)]> (fs w)))
      end
  end.

(** [mkdir(p)], without [recursive]: an existing entry at [p] is an error. *)
Definition mkdir (p : fspath) (w : World) : string + World :=
  match fs w !! p with
  | Some _ => inl (fsError "EEXIST: file already exists" "mkdir" p)
  | None =>
      match parentDir "mkdir" p w with
      | inl e => inl e
      | inr _ => inr (withFs w (<[p := Dir]> (fs w)))
      end
  end.

Fixpoint isJsonSpace (s : string) : bool :=
  match s with
  | EmptyString => true
  | String c s' =>
      match c with
      | "009"%char | "010"%char | "013"%char | " "%char => isJsonSpace s'
      | _ => false
      end
  end.

(** [JSON.parse(text) as STRMModulesFile]: [None] when it throws. *)
Definition JSON_parse (d : fileData) : option STRMModulesFile :=
  match d with
  | Text _ => None
  | ModulesJson r rest => if isJsonSpace rest then Some r else None
  end.

(** [JSON.stringify(r, undefined, 2)] *)
Definition JSON_stringify (r : STRMModulesFile) : fileData := ModulesJson r EmptyString.

(** ** Collaborators that are not among the sources *)

(** [titleCase] (utils/generalUtils.js), [getProjectConfig]
    (utils/fileUtils.js), [generateIndexPage] and [generateDetailsPage]
    (cliHelpers/fePageHelpers) are imported by [cliUtils.ts] and taken as
    parameters; reading the project configuration changes nothing. *)
Class Externals := {
  titleCase : string -> string;
  getProjectConfig : World -> option STRMConfigFile;
  generateIndexPage : FrontendOpt -> string -> string;
  generateDetailsPage : FrontendOpt -> string -> string -> string -> string
}.

(** Modelled from the spec: [buildScaffoldOutput] (utils/generalUtils.js) is
    missing; every collaborator reports "a structured outcome (success flag
    + message)", and each caller sets [success] only on its success path, so
    the fresh outcome is a failure with no message yet. *)
Definition buildScaffoldOutput : ScaffoldOutput :=
  {| success := false; message := None |}.

(** [output.success = true] *)
Definition setSuccess (o : ScaffoldOutput) : ScaffoldOutput :=
  {| success := true; message := message o |}.

(** [output.message = m] *)
Definition setMessage (o : ScaffoldOutput) (m : option string) : ScaffoldOutput :=
  {| success := success o; message := m |}.

(** ** The module pipeline ([src/utils/cliUtils.ts]) *)

Section CliUtils.
Context {ext : Externals}.

Definition controllerFilePath (controllerName : string) : fspath :=
  ["strm_controllers"; controllerName +:+ "_controller.py"].

Definition controllerData (brand date controllerName : string) : string :=
  "# Generated by the " +:+ brand +:+ " " +:+ date +:+ nl +:+
  "# Core imports" +:+ nl +:+
  "from starlette.endpoints import HTTPEndpoint" +:+ nl +:+
  "from starlette.responses import JSONResponse" +:+ nl +:+
  nl +:+
  nl +:+
  "class " +:+ titleCase controllerName +:+ "Controller(HTTPEndpoint):" +:+ nl +:+
  tab +:+ dq +:+ dq +:+ dq +:+ nl +:+
  tab +:+ "Autogenerated: Represents a " +:+ brand +:+ " Controller" +:+ nl +:+
  tab +:+ dq +:+ dq +:+ dq +:+ nl +:+
  tab +:+ "def get(self, request):" +:+ nl +:+
  tab +:+ tab +:+ "return JSONResponse({" +:+ nl +:+
  tab +:+ tab +:+ tab +:+ dq +:+ "success" +:+ dq +:+ ": True," +:+ nl +:+
  tab +:+ tab +:+ tab +:+ dq +:+ "message" +:+ dq +:+ ": " +:+ dq +:+
    "Controller generated by the CLI. Edit 'strm_models/" +:+ controllerName +:+
    ".py as needed" +:+ dq +:+ nl +:+
  tab +:+ tab +:+ "})" +:+ nl +:+
  nl.

(** [writeSTRMControllerFile(controllerName)] *)
Definition writeSTRMControllerFile (controllerName : string) (w : World)
  : ScaffoldOutput * World :=
  let output := buildScaffoldOutput in
  let brand := STORM_BRANDED w in
  let '(date, w1) := newDate w in
  let data := controllerData brand (toLocaleDateString date) controllerName in
  match writeFile (controllerFilePath controllerName) (Text data) w1 with
  | inr w2 => (setSuccess output, w2)
  | inl e => (setMessage output (Some e), w1)
  end.

Definition autoImportPath : fspath := ["strm_controllers"; "__init__.py"].

Definition autoImportData (controllerName : string) : string :=
  "from ." +:+ controllerName +:+ "_controller import " +:+
  titleCase controllerName +:+ "Controller" +:+ nl.

(** [updateSTRMModuleRouteAutoImports(controllerName)] *)
Definition updateSTRMModuleRouteAutoImports (controllerName : string) (w : World)
  : ScaffoldOutput * World :=
  let output := buildScaffoldOutput in
  match appendFile autoImportPath (autoImportData controllerName) w with
  | inr w1 => (setSuccess output, w1)
  | inl e => (setMessage output (Some e), w)
  end.

Definition modelFilePath (modelName : string) : fspath :=
  ["strm_models"; modelName +:+ ".py"].

Definition modelFileData (brand date modelName : string) : string :=
  "# Generated by the " +:+ brand +:+ " " +:+ date +:+ nl +:+
  "# Core Imports" +:+ nl +:+
  "import datetime" +:+ nl +:+
  "import mongoengine as me" +:+ nl +:+
  nl +:+
  nl +:+
  "class " +:+ titleCase modelName +:+ "(me.Document):" +:+ nl +:+
  tab +:+ dq +:+ dq +:+ dq +:+ nl +:+
  tab +:+ "Autogenerated:" +:+ nl +:+
  tab +:+ "Represents a " +:+ modelName +:+ nl +:+
  tab +:+ dq +:+ dq +:+ dq +:+ nl +:+
  tab +:+ "label = me.StringField(required=True, max_length=200)" +:+ nl +:+
  tab +:+ "updated_at = me.DateTimeField(default=datetime.datetime.utcnow)" +:+ nl +:+
  nl +:+
  "    ".

(** [writeSTRMModelFile(modelName)] *)
Definition writeSTRMModelFile (modelName : string) (w : World)
  : ScaffoldOutput * World :=
  let output := buildScaffoldOutput in
  let brand := STORM_BRANDED w in
  let '(date, w1) := newDate w in
  let data := modelFileData brand (toLocaleDateString date) modelName in
  match writeFile (modelFilePath modelName) (Text data) w1 with
  | inr w2 => (setSuccess output, w2)
  | inl e => (setMessage output (Some e), w1)
  end.

Definition modulesFilePath : fspath := ["strm_modules"; "strm_modules.json"].

(** [getSTRMModules()]: [None] is [undefined], returned when [readFile] or
    [JSON.parse] throws. *)
Definition getSTRMModules (w : World) : option STRMModulesFile :=
  match readFile modulesFilePath w with
  | inr modulesFileStringData => JSON_parse modulesFileStringData
  | inl _ => None
  end.

(** [strmModulesFile.lastUpdated = v] *)
Definition setLastUpdated (r : STRMModulesFile) (v : string) : STRMModulesFile :=
  {| appId := appId r; lastUpdated := v; modules := modules r |}.

(** [writeSTRMModulesFile(strmModulesFile)] *)
Definition writeSTRMModulesFile (strmModulesFile : STRMModulesFile) (w : World)
  : ScaffoldOutput * World :=
  let output := buildScaffoldOutput in
  let '(date, w1) := newDate w in
  let stamped := setLastUpdated strmModulesFile (toISOString date) in
  let dataToWrite := JSON_stringify stamped in
  match writeFile modulesFilePath dataToWrite w1 with
  | inr w2 => (setSuccess output, w2)
  | inl e => (setMessage output (Some e), w1)
  end.

(** The [map] callback of [regenerateSTRMModuleRoutes]: upper-cases the first
    character of a word. *)
Definition capitalizeWord (word : string) : string :=
  JS.toUpperCase (JS.charAt0 word) +:+ JS.slice1 word.

Definition correctedControllerName (controllerName : string) : string :=
  JS.join (map capitalizeWord (JS.split "_"%char controllerName)).

(** The [forEach] callback of [regenerateSTRMModuleRoutes]; [acc] is
    [controllerRoutesString]. *)
Definition routesCallback (modulesJSON : STRMModulesFile)
  (acc : string) (moduleKey : string) (index : Z) : string :=
  match JS.get moduleKey (modules modulesJSON) with
  | Some (Some module) =>
      let controller := controller module in
      let corrected := correctedControllerName (controllerName controller) in
      let shouldAddNewLine :=
        negb (index =? Z.of_nat (length (JS.keys (modules modulesJSON))) - 1) in
      let acc1 :=
        acc +:+ ("        Route('/" +:+ endpointBase controller +:+ "', " +:+
                 corrected +:+ ")," +:+ nl) in
      acc1 +:+ ("        Route('/" +:+ endpointBase controller +:+ "/{" +:+
                moduleKey +:+ "}', " +:+ corrected +:+ ")," +:+
                (if shouldAddNewLine then nl else EmptyString))
  | _ => acc
  end.

Definition controllerRoutesString (modulesJSON : STRMModulesFile) : string :=
  JS.forEach (routesCallback modulesJSON) (JS.keys (modules modulesJSON)) 0 EmptyString.

Definition routesString (brand date controllerRoutes : string) : string :=
  "# Generated by the " +:+ brand +:+ " " +:+ date +:+ nl +:+
  "# core imports" +:+ nl +:+
  "from starlette.routing import Mount, Route" +:+ nl +:+
  "# " +:+ brand +:+ " imports" +:+ nl +:+
  "from strm_controllers import *" +:+ nl +:+
  nl +:+
  nl +:+
  "# generated routes" +:+ nl +:+
  "routes = [" +:+ nl +:+
  "    Mount('/api', routes=[" +:+ nl +:+
  controllerRoutes +:+ nl +:+
  "    ])" +:+ nl +:+
  "]" +:+ nl.

Definition routesFilePath : fspath := ["strm_routes"; "__init__.py"].

(** [regenerateSTRMModuleRoutes()] *)
Definition regenerateSTRMModuleRoutes (w : World) : ScaffoldOutput * World :=
  let output := buildScaffoldOutput in
  let brand := STORM_BRANDED w in
  match getSTRMModules w with
  | None => (setMessage output (Some "Failed to read modules file"), w)
  | Some modulesJSON =>
      let routes := controllerRoutesString modulesJSON in
      let '(date, w1) := newDate w in
      let data := routesString brand (toLocaleDateString date) routes in
      match writeFile routesFilePath (Text data) w1 with
      | inr w2 => (setSuccess output, w2)
      | inl e => (setMessage output (Some e), w1)
      end
  end.

Definition frontendName (f : FrontendOpt) : string :=
  match f with
  | react => "react"
  | vue => "vue"
  | lit => "lit"
  end.

Definition feBasePath (strmConfig : STRMConfigFile) (pluralizedModuleName : string) : fspath :=
  ["strm_fe_" +:+ frontendName (frontend strmConfig); "src"; "pages";
   titleCase pluralizedModuleName].

(** The [for (const page of pages)] loop of [buildSTRMFrontendComponents]:
    [Some e] when a [writeFile] throws, with the pages written so far kept. *)
Fixpoint writePages (strmConfig : STRMConfigFile) (base : fspath) (module : STRMModule)
  (ps : list STRMFERoute) (w : World) : option string * World :=
  match ps with
  | [] => (None, w)
  | page :: rest =>
      let isIndexPage := JS.includes "Index" (componentPath page) in
      let fileName :=
        if isIndexPage then "Index.tsx" else componentName page +:+ ".tsx" in
      let pageData :=
        if isIndexPage
        then generateIndexPage (frontend strmConfig) (componentName page)
        else generateDetailsPage (frontend strmConfig) (componentName page)
               (componentPath page) (controllerName (controller module)) in
      match writeFile (base ++ [fileName]) (Text pageData) w with
      | inl e => (Some e, w)
      | inr w' => writePages strmConfig base module rest w'
      end
  end.

(** [buildSTRMFrontendComponents(moduleKey, pluralizedModuleName)] *)
Definition buildSTRMFrontendComponents (moduleKey pluralizedModuleName : string)
  (w : World) : ScaffoldOutput * World :=
  let output := buildScaffoldOutput in
  match getProjectConfig w with
  | None => (setMessage output (Some "Failed to load project config"), w)
  | Some strmConfig =>
      match getSTRMModules w with
      | None => (setMessage output (Some "Failed to load strm modules"), w)
      | Some strmModules =>
          let base := feBasePath strmConfig pluralizedModuleName in
          match mkdir base w with
          | inl e => (setMessage output (Some e), w)
          | inr w1 =>
              match JS.get moduleKey (modules strmModules) with
              | Some (Some module) =>
                  match writePages strmConfig base module (pages module) w1 with
                  | (Some e, w2) => (setMessage output (Some e), w2)
                  | (None, w2) => (setSuccess output, w2)
                  end
              | _ => (setMessage output (Some "Invalid STRM Module"), w1)
              end
          end
      end
  end.

(** [plural ? plural : name] *)
Definition pluralizedName (moduleArgs : STRMModuleArgs) : string :=
  match Args.plural moduleArgs with
  | Some plural => if JS.truthy plural then plural else Args.name moduleArgs
  | None => Args.name moduleArgs
  end.

(** Truthiness of the optional flag [controllerOnly]. *)
Definition flag (b : option bool) : bool := default false b.

(** [buildSTRMModule(moduleArgs)] *)
Definition buildSTRMModule (moduleArgs : STRMModuleArgs) : STRMModule :=
  let name := Args.name moduleArgs in
  let pluralizedName := pluralizedName moduleArgs in
  let lowercaseName := JS.toLowerCase name in
  let controller :=
    {| controllerName := lowercaseName +:+ "_controller";
       modelName := lowercaseName +:+ ".py";
       endpointBase := pluralizedName |} in
  let pages :=
    if negb (flag (Args.controllerOnly moduleArgs)) then
      let indexPage :=
        {| path := "/" +:+ pluralizedName;
           componentName := titleCase name;
           componentPath := titleCase pluralizedName +:+ "/Index" |} in
      let detailsPage :=
        {| path := "/" +:+ pluralizedName +:+ "/:id";
           componentName := titleCase name +:+ "Detail";
           componentPath := titleCase pluralizedName +:+ "/" +:+ titleCase name |} in
      [indexPage; detailsPage]
    else [] in
  {| controller := controller;
     controllerOnly := negb (negb (flag (Args.controllerOnly moduleArgs)));
     pages := pages |}.

(** [strmModulesFileData.modules[name] = descriptor] *)
Definition setModule (r : STRMModulesFile) (name : string) (m : STRMModule)
  : STRMModulesFile :=
  {| appId := appId r; lastUpdated := lastUpdated r;
     modules := JS.set name (Some m) (modules r) |}.

(** [createSTRMModule(moduleArgs)]; the console messages are left out. *)
Definition createSTRMModule (moduleArgs : STRMModuleArgs) (w : World)
  : ScaffoldOutput * World :=
  let output := buildScaffoldOutput in
  let name := Args.name moduleArgs in
  (* 0. read configuration *)
  match getSTRMModules w with
  | None => (setMessage output (Some "Failed to read STRMModules file"), w)
  | Some strmModulesFileData =>
      (* 0.1 update modules JSON file *)
      let updated := setModule strmModulesFileData name (buildSTRMModule moduleArgs) in
      let '(writeModulesResult, w1) := writeSTRMModulesFile updated w in
      if negb (success writeModulesResult)
      then (setMessage output (Some "Failed to write Modules"), w1)
      else
      (* 1. build model *)
      let '(modelResult, w2) := writeSTRMModelFile name w1 in
      if negb (success modelResult)
      then (setMessage output (message modelResult), w2)
      else
      (* 2. build controller *)
      let '(controllerResult, w3) := writeSTRMControllerFile name w2 in
      if negb (success controllerResult)
      then (setMessage output (message controllerResult), w3)
      else
      (* 3. rewrite backend routes *)
      let '(moduleRoutesResult, w4) := regenerateSTRMModuleRoutes w3 in
      if negb (success moduleRoutesResult)
      then (setMessage output (message moduleRoutesResult), w4)
      else
      (* 3.1 update auto imports *)
      let '(updateAutoImportsResult, w5) := updateSTRMModuleRouteAutoImports name w4 in
      if negb (success updateAutoImportsResult)
      then (setMessage output (message updateAutoImportsResult), w5)
      else
      (* 4. build frontend components *)
      let '(buildFEComponentsResult, w6) :=
        buildSTRMFrontendComponents name (pluralizedName moduleArgs) w5 in
      if negb (success buildFEComponentsResult)
      then (setMessage output (message buildFEComponentsResult), w6)
      else (setSuccess output, w6)
  end.

End CliUtils.

(** ** Reading the model's results *)

(** What the file at [p] holds, whatever its mode. *)
Definition contents (w : World) (p : fspath) : option fileData :=
  match fs w !! p with
  | Some (File _ d) => Some d
  | _ => None
  end.

(** The registry held by the registry file. *)
Definition registryOnDisk (w : World) : option STRMModulesFile :=
  match contents w modulesFilePath with
  | Some d => JSON_parse d
  | None => None
  end.

(** The two route bindings of the module under key [K], as
    [regenerateSTRMModuleRoutes] writes them. *)
Definition routeBindings (K : string) (m : STRMModule) : string :=
  let E := endpointBase (controller m) in
  let C := correctedControllerName (controllerName (controller m)) in
  "        Route('/" +:+ E +:+ "', " +:+ C +:+ ")," +:+ nl +:+
  "        Route('/" +:+ E +:+ "/{" +:+ K +:+ "}', " +:+ C +:+ "),".

(** The route block by registry position: an entry with a descriptor gives
    its two bindings, followed by a newline unless it is the registry's last
    entry; an entry without one gives nothing. *)
Fixpoint routesByPosition (o : JS.object (option STRMModule)) : string :=
  match o with
  | [] => EmptyString
  | (K, v) :: o' =>
      match v with
      | Some m =>
          routeBindings K m +:+
          (match o' with [] => EmptyString | _ => nl end) +:+ routesByPosition o'
      | None => routesByPosition o'
      end
  end.

(** The modules the rebuilder emits: the entries that hold a descriptor. *)
Fixpoint emitted (o : JS.object (option STRMModule)) : list (string * STRMModule) :=
  match o with
  | [] => []
  | (K, Some m) :: o' => (K, m) :: emitted o'
  | (_, None) :: o' => emitted o'
  end.

(** The route block in the words of the specification: the bindings of each
    emitted module, with a separator after all but the last emitted one. *)
Fixpoint routesAsSpecified (ms : list (string * STRMModule)) : string :=
  match ms with
  | [] => EmptyString
  | [(K, m)] => routeBindings K m
  | (K, m) :: ms' => routeBindings K m +:+ nl +:+ routesAsSpecified ms'
  end.

(** Whether the registry ends in a skipped entry after at least one emitted
    module. *)
Definition skippedAtEnd (o : JS.object (option STRMModule)) : bool :=
  match last o, emitted o with
  | Some (_, None), _ :: _ => true
  | _, _ => false
  end.

(** A registry whose last entry holds no descriptor. *)
Definition bookModule : STRMModule :=
  {| controller :=
       {| controllerName := "book_controller"; endpointBase := "book";
          modelName := "book.py" |};
     controllerOnly := true;
     pages := [] |}.

Definition skippedLastRegistry : STRMModulesFile :=
  {| appId := "6f1c2d"; lastUpdated := "2026-11-01T09:00:00.000Z";
     modules := [("book", Some bookModule); ("draft", None)] |}.

(** A name is entirely lowercase when it has no letter A-Z. *)
Fixpoint isLowercase (s : string) : bool :=
  match s with
  | EmptyString => true
  | String c s' => negb (JS.isUpperLetter c) && isLowercase s'
  end.

(** Success of a step of the pipeline, with the world it leaves. *)
Definition succeeds (step : ScaffoldOutput * World) (w' : World) : Prop :=
  success (fst step) = true /\ snd step = w'.

(** What a step leaves of the world's clock and locale data. *)
Definition settingKept (w w' : World) : Prop :=
  clock w' = clock w /\ STORM_BRANDED w' = STORM_BRANDED w /\ (reads w <= reads w')%nat.

(** ** A sample project *)

(** Modelled from the spec: [titleCase] (utils/generalUtils.js) is missing;
    "first letter of each underscore-delimited segment capitalized,
    non-destructive to the rest of the segment", for PascalCase identifiers. *)
Definition titleCaseSpec (text : string) : string :=
  JS.join (map capitalizeWord (JS.split "_"%char text)).

Definition reactConfig : STRMConfigFile :=
  {| viteHost := "localhost"; vitePort := 5173; frontend := react;
     frontendBasePath := "strm_fe_react"; frontendEntryPoint := "main.tsx";
     frontendExtensions := ["ts"; "tsx"] |}.

(** A React project whose page generators emit one-line stubs. *)
Definition sampleExternals : Externals :=
  {| titleCase := titleCaseSpec;
     getProjectConfig := fun _ => Some reactConfig;
     generateIndexPage := fun f componentName =>
       "// " +:+ frontendName f +:+ " index page " +:+ componentName;
     generateDetailsPage := fun f componentName componentPath controllerName =>
       "// " +:+ frontendName f +:+ " details page " +:+ componentName +:+
       " for " +:+ controllerName |}.

Definition emptyRegistry : STRMModulesFile :=
  {| appId := "6f1c2d"; lastUpdated := "2026-11-01T09:00:00.000Z"; modules := [] |}.

Definition projectDirs : list (fspath * node) :=
  [ (["strm_modules"], Dir); (["strm_models"], Dir); (["strm_controllers"], Dir);
    (["strm_routes"], Dir); (["strm_fe_react"], Dir);
    (["strm_fe_react"; "src"], Dir); (["strm_fe_react"; "src"; "pages"], Dir) ].

Definition projectFiles (r : STRMModulesFile) : list (fspath * node) :=
  [ (["strm_modules"; "strm_modules.json"], File defaultMode (JSON_stringify r));
    (["strm_controllers"; "__init__.py"], File defaultMode (Text EmptyString));
    (["strm_routes"; "__init__.py"], File defaultMode (Text "routes = []")) ].

Definition projectFs (r : STRMModulesFile) : gmap fspath node :=
  list_to_map (projectDirs ++ projectFiles r).

(** A clock that advances a quarter of a second per reading, within one day. *)
Definition dayClock (n : nat) : JSDate :=
  {| toISOString :=
       match n with
       | O => "2026-11-03T10:15:30.000Z"
       | 1%nat => "2026-11-03T10:15:30.250Z"
       | 2%nat => "2026-11-03T10:15:30.500Z"
       | _ => "2026-11-03T10:15:30.750Z"
       end;
     toLocaleDateString := "11/3/2026" |}.

(** A clock whose first reading falls just before midnight and the next
    ones just after. *)
Definition midnightClock (n : nat) : JSDate :=
  match n with
  | O => {| toISOString := "2026-11-03T23:59:59.900Z"; toLocaleDateString := "11/3/2026" |}
  | _ => {| toISOString := "2026-11-04T00:00:00.100Z"; toLocaleDateString := "11/4/2026" |}
  end.

(** A clock that is set back by a second after its first four readings (the
    four a successful [createSTRMModule] run makes). *)
Definition adjustedClock (n : nat) : JSDate :=
  if (n <? 4)%nat
  then {| toISOString := "2026-11-03T10:00:00.000Z"; toLocaleDateString := "11/3/2026" |}
  else {| toISOString := "2026-11-03T09:59:59.000Z"; toLocaleDateString := "11/3/2026" |}.

Definition project (r : STRMModulesFile) (c : nat -> JSDate) : World :=
  {| fs := projectFs r; clock := c; reads := 0; STORM_BRANDED := "STORM Stack" |}.

(** A project directory whose registry file is absent. *)
Definition projectWithoutRegistry : World :=
  {| fs := list_to_map projectDirs; clock := dayClock; reads := 0;
     STORM_BRANDED := "STORM Stack" |}.

(** The ways [getSTRMModules] comes back empty-handed: the registry file is
    missing, unreadable (a directory, or no read permission), or does not
    parse. *)
Definition registryUnavailable (w : World) : Prop :=
  fs w !! modulesFilePath = None \/
  fs w !! modulesFilePath = Some Dir \/
  exists m d, fs w !! modulesFilePath = Some (File m d) /\
              (readable m = false \/ JSON_parse d = None).

(** The [lastUpdated] stamp of the registry file. *)
Definition lastUpdatedOnDisk (w : World) : option string :=
  lastUpdated <$> registryOnDisk w.

Definition bookArgs : STRMModuleArgs :=
  {| Args.name := "book"; Args.controllerOnly := None; Args.plural := None |}.

Definition categoryArgs : STRMModuleArgs :=
  {| Args.name := "category"; Args.controllerOnly := Some true;
     Args.plural := Some "categories" |}.

(** The registry after module [book] was created in an empty one. *)
Definition bookRegistry : STRMModulesFile :=
  setModule emptyRegistry "book" (buildSTRMModule (ext := sampleExternals) bookArgs).

(** The sample project after module [book] was created in it. *)
Definition bookProject : World :=
  snd (createSTRMModule (ext := sampleExternals) bookArgs (project emptyRegistry dayClock)).

(** The registry file of [bookProject]. *)
Definition bookRegistryOnDisk : STRMModulesFile :=
  setLastUpdated bookRegistry "2026-11-03T10:15:30.000Z".

(** A project directory that lacks [strm_routes]. *)
Definition projectWithoutRoutes : World :=
  {| fs := list_to_map
             ([ (["strm_modules"], Dir); (["strm_models"], Dir);
                (["strm_controllers"], Dir) ]
              ++ [ (["strm_modules"; "strm_modules.json"],
                    File defaultMode (JSON_stringify emptyRegistry));
                   (["strm_controllers"; "__init__.py"],
                    File defaultMode (Text EmptyString)) ]);
     clock := dayClock; reads := 0; STORM_BRANDED := "STORM Stack" |}.

(** ** What the pipeline keeps, and when a write goes through *)

(** Same kind of entry: a directory, or a file with the same mode. *)
Definition sameKind (n n' : node) : Prop :=
  match n, n' with
  | Dir, Dir => True
  | File m _, File m' _ => m = m'
  | _, _ => False
  end.

(** Every entry of [w] is in [w'] too, with its kind. *)
Definition keepsEntries (w w' : World) : Prop :=
  forall p n, fs w !! p = Some n -> exists n', fs w' !! p = Some n' /\ sameKind n n'.

(** [writeFile] or [appendFile] at [p] would go through: [p] is a writable
    file, or is free in an existing directory. *)
Definition writableAt (w : World) (p : fspath) : bool :=
  match fs w !! p with
  | Some Dir => false
  | Some (File m _) => writable m
  | None => match parentDir "open" p w with
            | inr _ => true
            | inl _ => false
            end
  end.

(** [access(p, R_OK)] would go through: [p] is a directory or a readable file. *)
Definition readableAt (w : World) (p : fspath) : bool :=
  match fs w !! p with
  | Some Dir => true
  | Some (File m _) => readable m
  | None => false
  end.

(** The number of occurrences of [c] in [s]. *)
Fixpoint countChar (c : ascii) (s : string) : nat :=
  match s with
  | EmptyString => 0%nat
  | String x s' => ((if Ascii.eqb x c then 1 else 0) + countChar c s')%nat
  end.

(** The file [checkSTRMProject] reads the configuration from. *)
Definition configFilePath : fspath := ["strm_config"; "strm_config.json"].

(** ** The project check ([checkSTRMProject], [src/utils/cliUtils.ts]) *)

Section CheckProject.

(** [JSON.parse(configData) as STRMConfigFile]: the configuration, or the
    message of the error thrown. *)
Variable JSON_parse_config : fileData -> string + STRMConfigFile.

(** [access(p, Constants.R_OK)] *)
Definition access (p : fspath) (w : World) : string + unit :=
  match fs w !! p with
  | None => inl (fsError "ENOENT: no such file or directory" "access" p)
  | Some Dir => inr tt
  | Some (File m _) =>
      if readable m then inr tt
      else inl (fsError "EACCES: permission denied" "access" p)
  end.

(** The [PATHS] a project must have. *)
Definition PATHS (parsedConfig : STRMConfigFile) : list fspath :=
  let frontendDir := "strm_fe_" +:+ frontendName (frontend parsedConfig) in
  [ [frontendDir];
    [frontendDir; "src"; frontendEntryPoint parsedConfig];
    [frontendDir; "src"; "pages"];
    ["strm_controllers"];
    ["strm_models"];
    ["strm_modules"; "strm_modules.json"];
    ["strm_routes"];
    ["support"; "strm_hmr.py"];
    ["templates"; "app.html"];
    ["app.py"];
    ["vite.config.ts"];
    ["tailwind.config.ts"] ].

(** The [for (const dir of PATHS)] loop: the first [access] that throws ends it. *)
Fixpoint accessAll (projectDir : fspath) (paths : list fspath) (w : World)
  : string + unit :=
  match paths with
  | [] => inr tt
  | dir :: rest =>
      match access (projectDir ++ dir) w with
      | inl e => inl e
      | inr _ => accessAll projectDir rest w
      end
  end.

(** [checkSTRMProject(projectDir, showOutput)]; it only reads. *)
Definition checkSTRMProject (projectDir : fspath) (showOutput : bool) (w : World)
  : ScaffoldOutput :=
  let output := buildScaffoldOutput in
  match readFile (projectDir ++ configFilePath) w with
  | inl e => setMessage output (Some e)
  | inr configData =>
      match JSON_parse_config configData with
      | inl e => setMessage output (Some e)
      | inr parsedConfig =>
          match accessAll projectDir (PATHS parsedConfig) w with
          | inl e => setMessage output (Some e)
          | inr _ => setSuccess output
          end
      end
  end.

End CheckProject.

(** ** The frontend scaffold ([src/scaffoldFuncs/scaffoldFrontend.ts]) *)

Inductive LoggerMode := quiet | verbose.

Module Opts.
Record t := {
  projectName : string;
  frontend : FrontendOpt;
  loggerMode : LoggerMode;
  installPrettier : bool;
  enableGit : bool
}.
End Opts.
Abbreviation ScaffoldOpts := Opts.t.

Section ScaffoldFrontend.

(** The collaborators of utils/scaffoldUtils.js and the string constant of
    constants/stringConstants.js, none among the sources: each collaborator
    yields an outcome or throws (the error's message), and leaves a world. *)
Variable setupBaseFrontend : fspath -> LoggerMode -> World -> (string + ScaffoldOutput) * World.
Variable setupFrontend : FrontendOpt -> LoggerMode -> World -> (string + ScaffoldOutput) * World.
Variable copyFrontendTemplates :
  fspath -> FrontendOpt -> LoggerMode -> World -> (string + ScaffoldOutput) * World.
Variable SUCCESS_INSTALL_FE_DEPS : string.

(** [scaffoldFrontend(scaffoldOptions)] *)
Definition scaffoldFrontend (scaffoldOptions : ScaffoldOpts) (w : World)
  : ScaffoldOutput * World :=
  let output := buildScaffoldOutput in
  (* 1. install base vite dependencies *)
  match setupBaseFrontend [] (Opts.loggerMode scaffoldOptions) w with
  | (inl e, w1) => (setMessage output (Some e), w1)
  | (inr baseDepsResult, w1) =>
      if negb (success baseDepsResult)
      then (setMessage output (message baseDepsResult), w1)
      else
      (* 2. install frontend dependencies for the chosen frontend *)
      match setupFrontend (Opts.frontend scaffoldOptions)
              (Opts.loggerMode scaffoldOptions) w1 with
      | (inl e, w2) => (setMessage output (Some e), w2)
      | (inr frontendResult, w2) =>
          if negb (success frontendResult)
          then (setMessage output (message frontendResult), w2)
          else
          (* 3. copy frontend template files to destination *)
          match copyFrontendTemplates [] (Opts.frontend scaffoldOptions)
                  (Opts.loggerMode scaffoldOptions) w2 with
          | (inl e, w3) => (setMessage output (Some e), w3)
          | (inr frontendCopyResult, w3) =>
              if negb (success frontendCopyResult)
              then (setMessage output (message frontendCopyResult), w3)
              else
                (setSuccess
                   (setMessage output
                      (Some (SUCCESS_INSTALL_FE_DEPS +:+ " " +:+
                             frontendName (Opts.frontend scaffoldOptions)))),
                 w3)
          end
      end
  end.

End ScaffoldFrontend.

(** ** The add-on install string ([installPrettier], [src/utils/scaffoldAddOnUtils.ts]) *)

(** [words.join(sep)] *)
Fixpoint joinWith (sep : string) (words : list string) : string :=
  match words with
  | [] => EmptyString
  | [w] => w
  | w :: ws => w +:+ sep +:+ joinWith sep ws
  end.

(** [Object.keys(packages).map((pkg) => `${pkg}@${packages[pkg]}`).join(' ')] *)
Definition installString (packages : JS.object string) : string :=
  joinWith " "
    (map (fun pkg =>
            pkg +:+ "@" +:+
            match JS.get pkg packages with
            | Some version => version
            | None => "undefined"
            end)
       (JS.keys packages)).

(** A project whose registry holds module [index]. *)
Definition indexArgs : STRMModuleArgs :=
  {| Args.name := "index"; Args.controllerOnly := None; Args.plural := None |}.

Definition indexProject : World :=
  project (setModule emptyRegistry "index"
             (buildSTRMModule (ext := sampleExternals) indexArgs)) dayClock.

(** The sample project with its configuration and the other files the
    project check asks for. *)
Definition checkedFs : gmap fspath node :=
  list_to_map
    (projectDirs ++ projectFiles emptyRegistry ++
     [ (["strm_config"], Dir);
       (["strm_config"; "strm_config.json"], File defaultMode (Text "react"));
       (["strm_fe_react"; "src"; "main.tsx"], File defaultMode (Text EmptyString));
       (["support"], Dir);
       (["support"; "strm_hmr.py"], File defaultMode (Text EmptyString));
       (["templates"], Dir);
       (["templates"; "app.html"], File defaultMode (Text EmptyString));
       (["app.py"], File defaultMode (Text EmptyString));
       (["vite.config.ts"], File defaultMode (Text EmptyString));
       (["tailwind.config.ts"], File defaultMode (Text EmptyString)) ]).

Definition checkedProject : World :=
  {| fs := checkedFs; clock := dayClock; reads := 0; STORM_BRANDED := "STORM Stack" |}.

(** A configuration parser for the sample project: its configuration file
    stands for [reactConfig]. *)
Definition sampleParseConfig (d : fileData) : string + STRMConfigFile :=
  match d with
  | Text "react" => inr reactConfig
  | _ => inl "Unexpected token in JSON"
  end.

(** ** Strings and objects *)

Lemma append_cons (x : ascii) (a b : string) :
  String x a +:+ b = String x (a +:+ b).
Proof. reflexivity. Qed.

Lemma append_assoc (a b c : string) : (a +:+ b) +:+ c = a +:+ (b +:+ c).
Proof.
  induction a as [|x a IH]; [reflexivity|].
  by rewrite !append_cons, IH.
Qed.

Lemma append_nil_r (a : string) : a +:+ EmptyString = a.
Proof.
  induction a as [|x a IH]; [reflexivity|].
  by rewrite append_cons, IH.
Qed.

Lemma length_append (a b : string) :
  String.length (a +:+ b) = (String.length a + String.length b)%nat.
Proof.
  induction a as [|x a IH]; [reflexivity|].
  rewrite append_cons. simpl. by rewrite IH.
Qed.

Lemma append_cancel_lower (s t : string) :
  JS.toLowerCase s +:+ t = s +:+ t <-> JS.toLowerCase s = s.
Proof.
  induction s as [|c s IH]; [by split|].
  cbn [JS.toLowerCase]. rewrite !append_cons.
  split; intros H; injection H as Hc Hs.
  - f_equal; [done | by apply IH].
  - rewrite Hc. f_equal. by apply IH.
Qed.

Lemma toLowerCaseChar_fixed (c : ascii) :
  JS.toLowerCaseChar c = c <-> JS.isUpperLetter c = false.
Proof.
  destruct c as [[] [] [] [] [] [] [] []]; vm_compute; split; congruence.
Qed.

Lemma toLowerCase_fixed (s : string) :
  JS.toLowerCase s = s <-> isLowercase s = true.
Proof.
  induction s as [|c s IH]; simpl; [done|].
  rewrite andb_true_iff, negb_true_iff, <- IH, <- toLowerCaseChar_fixed.
  split; [intros H; injection H; auto | intros [-> ->]; reflexivity].
Qed.

Lemma get_app_fresh {V} (k : string) (v : V) (pre suf : JS.object V) :
  k ∉ JS.keys pre -> JS.get k (pre ++ (k, v) :: suf) = Some v.
Proof.
  induction pre as [|[k' v'] pre IH]; simpl; intros Hk.
  - by rewrite String.eqb_refl.
  - apply not_elem_of_cons in Hk as [Hne Hk].
    apply String.eqb_neq in Hne. rewrite Hne. auto.
Qed.

Lemma get_set_eq {V} (k : string) (v : V) (o : JS.object V) :
  JS.get k (JS.set k v o) = Some v.
Proof.
  induction o as [|[k' v'] o IH]; simpl.
  - by rewrite String.eqb_refl.
  - destruct (String.eqb k k') eqn:E; simpl; [by rewrite String.eqb_refl | by rewrite E].
Qed.

Lemma get_set_ne {V} (k k' : string) (v : V) (o : JS.object V) :
  k <> k' -> JS.get k' (JS.set k v o) = JS.get k' o.
Proof.
  intros Hne. induction o as [|[k0 v0] o IH]; simpl.
  - apply not_eq_sym, String.eqb_neq in Hne. by rewrite Hne.
  - destruct (String.eqb k k0) eqn:E; simpl; [|by rewrite IH].
    apply String.eqb_eq in E as <-.
    apply not_eq_sym, String.eqb_neq in Hne. by rewrite Hne.
Qed.

Lemma keys_set_present {V} (k : string) (v : V) (o : JS.object V) :
  k ∈ JS.keys o -> JS.keys (JS.set k v o) = JS.keys o.
Proof.
  induction o as [|[k0 v0] o IH]; simpl; intros Hin.
  - by apply elem_of_nil in Hin.
  - destruct (String.eqb k k0) eqn:E; simpl.
    + apply String.eqb_eq in E as ->. reflexivity.
    + apply String.eqb_neq in E. apply elem_of_cons in Hin as [?|Hin]; [done|].
      f_equal. by apply IH.
Qed.

Lemma keys_set_absent {V} (k : string) (v : V) (o : JS.object V) :
  k ∉ JS.keys o -> JS.keys (JS.set k v o) = JS.keys o ++ [k].
Proof.
  induction o as [|[k0 v0] o IH]; simpl; intros Hin; [reflexivity|].
  apply not_elem_of_cons in Hin as [Hne Hin].
  apply String.eqb_neq in Hne. rewrite Hne. simpl. f_equal. by apply IH.
Qed.

Lemma keys_set_NoDup {V} (k : string) (v : V) (o : JS.object V) :
  NoDup (JS.keys o) -> NoDup (JS.keys (JS.set k v o)).
Proof.
  intros Hnd. destruct (decide (k ∈ JS.keys o)) as [Hin|Hin].
  - by rewrite keys_set_present.
  - rewrite keys_set_absent by done. apply NoDup_app. split_and!; [done| |apply NoDup_singleton].
    intros x Hx ->%list_elem_of_singleton. done.
Qed.

Lemma filter_absent (K : string) (l : list string) :
  K ∉ l -> filter (eq K) l = [].
Proof.
  induction l as [|x l IH]; intros Hin; [done|].
  apply not_elem_of_cons in Hin as [Hne Hin].
  rewrite filter_cons_False by done. by apply IH.
Qed.

Lemma NoDup_filter_one (K : string) (l : list string) :
  NoDup l -> K ∈ l -> length (filter (eq K) l) = 1%nat.
Proof.
  induction 1 as [|x l Hx Hnd IH]; intros Hin; [by apply elem_of_nil in Hin|].
  destruct (decide (K = x)) as [->|Hne].
  - rewrite filter_cons_True by done. simpl. by rewrite filter_absent.
  - rewrite filter_cons_False by done.
    apply elem_of_cons in Hin as [?|Hin]; [done | by apply IH].
Qed.

(** ** The route block *)

Lemma forEach_routes (r : STRMModulesFile) (suf pre : JS.object (option STRMModule))
  (acc : string) :
  modules r = pre ++ suf ->
  NoDup (JS.keys (pre ++ suf)) ->
  JS.forEach (routesCallback r) (JS.keys suf) (Z.of_nat (length pre)) acc
  = acc +:+ routesByPosition suf.
Proof.
  revert pre acc. induction suf as [|[K v] suf IH]; intros pre acc Hr Hnd.
  - simpl. by rewrite append_nil_r.
  - assert (HK : K ∉ JS.keys pre).
    { unfold JS.keys in Hnd. rewrite map_app in Hnd.
      apply NoDup_app in Hnd as (_ & Hdis & _).
      intros Hin. apply (Hdis K Hin). simpl. apply elem_of_cons. by left. }
    cbn [JS.keys map fst JS.forEach]. fold (JS.keys suf).
    assert (Hr' : modules r = (pre ++ [(K, v)]) ++ suf) by by rewrite <- app_assoc.
    assert (Hnd' : NoDup (JS.keys ((pre ++ [(K, v)]) ++ suf))) by by rewrite <- app_assoc.
    specialize (IH (pre ++ [(K, v)])).
    rewrite length_app in IH. simpl in IH.
    replace (Z.of_nat (length pre + 1)) with (Z.of_nat (length pre) + 1) in IH by lia.
    rewrite IH by done.
    unfold routesCallback. rewrite Hr, (get_app_fresh K v pre suf HK).
    destruct v as [m|]; [|reflexivity].
    unfold JS.keys. rewrite length_map, length_app. cbn [length routesByPosition].
    unfold routeBindings. destruct suf as [|e suf]; cbn [length].
    + destruct (Z.eqb_spec (Z.of_nat (length pre))
                  (Z.of_nat (length pre + 1) - 1)); [|lia].
      cbn [negb]. by rewrite !append_assoc.
    + destruct (Z.eqb_spec (Z.of_nat (length pre))
                  (Z.of_nat (length pre + S (S (length suf))) - 1)); [lia|].
      cbn [negb]. by rewrite !append_assoc.
Qed.

Lemma controllerRoutesString_by_position (r : STRMModulesFile) :
  NoDup (JS.keys (modules r)) ->
  controllerRoutesString r = routesByPosition (modules r).
Proof.
  intros Hnd. unfold controllerRoutesString.
  exact (forEach_routes r (modules r) [] EmptyString eq_refl Hnd).
Qed.

Lemma controllerRoutesString_modules (r r' : STRMModulesFile) :
  modules r = modules r' -> controllerRoutesString r = controllerRoutesString r'.
Proof.
  destruct r as [a l o], r' as [a' l' o']. simpl. intros ->. reflexivity.
Qed.

Lemma emitted_nil_last (o : JS.object (option STRMModule)) :
  emitted o = [] -> routesByPosition o = EmptyString /\
  (o <> [] -> exists K, last o = Some (K, None)).
Proof.
  induction o as [|[K [m|]] o IH]; simpl; intros He; [done|done|].
  destruct (IH He) as [Hr Hl]. split; [done|]. intros _.
  destruct o as [|e o]; [by exists K|]. destruct Hl as [K' HK']; [done|].
  exists K'. by rewrite last_cons, HK'.
Qed.

Lemma routesByPosition_as_specified (o : JS.object (option STRMModule)) :
  routesByPosition o
  = routesAsSpecified (emitted o) +:+ (if skippedAtEnd o then nl else EmptyString).
Proof.
  induction o as [|[K [m|]] o IH].
  - reflexivity.
  - cbn [routesByPosition emitted]. rewrite IH. unfold skippedAtEnd.
    cbn [emitted]. destruct o as [|e o].
    + simpl. by rewrite !append_nil_r.
    + change (last ((K, Some m) :: e :: o)) with (last (e :: o)).
      destruct (emitted (e :: o)) as [|[K' m'] es] eqn:He.
      * destruct (emitted_nil_last _ He) as [_ Hl]. destruct Hl as [K' ->]; [done|].
        simpl. by rewrite !append_nil_r.
      * destruct (last (e :: o)) as [[K'' [m''|]]|];
          cbn [routesAsSpecified]; by rewrite !append_assoc.
  - cbn [routesByPosition emitted]. rewrite IH. unfold skippedAtEnd.
    cbn [emitted]. destruct o as [|e o]; [reflexivity|].
    by change (last ((K, None) :: e :: o)) with (last (e :: o)).
Qed.

(** ** The file-system operations *)

Lemma writeFile_inv (p : fspath) (d : fileData) (w w' : World) :
  writeFile p d w = inr w' ->
  exists m, w' = withFs w (<[p := File m d]> (fs w)).
Proof.
  unfold writeFile. intros H.
  repeat case_match; simplify_eq; eauto.
Qed.

Lemma appendFile_inv (p : fspath) (s : string) (w w' : World) :
  appendFile p s w = inr w' ->
  exists m, w' = withFs w (<[p := File m (match contents w p with
                                          | Some d => appendData d s
                                          | None => Text s
                                          end)]> (fs w)).
Proof.
  unfold appendFile, contents. intros H.
  repeat case_match; simplify_eq; eauto.
Qed.

Lemma mkdir_inv (p : fspath) (w w' : World) :
  mkdir p w = inr w' ->
  fs w !! p = None /\ w' = withFs w (<[p := Dir]> (fs w)).
Proof.
  unfold mkdir. intros H.
  repeat case_match; simplify_eq; eauto.
Qed.

Lemma mkdir_exists (p : fspath) (w : World) :
  is_Some (fs w !! p) ->
  mkdir p w = inl (fsError "EEXIST: file already exists" "mkdir" p).
Proof. unfold mkdir. intros [n ->]. reflexivity. Qed.

Lemma contents_frame (w w' : World) (p : fspath) :
  fs w' !! p = fs w !! p -> contents w' p = contents w p.
Proof. unfold contents. by intros ->. Qed.

Lemma contents_insert (f : gmap fspath node) (w : World) (p : fspath) (m : mode)
  (d : fileData) :
  fs w = <[p := File m d]> f -> contents w p = Some d.
Proof. unfold contents. intros ->. by rewrite lookup_insert_eq. Qed.

Lemma getSTRMModules_frame (w w' : World) :
  fs w' !! modulesFilePath = fs w !! modulesFilePath ->
  getSTRMModules w' = getSTRMModules w.
Proof. unfold getSTRMModules, readFile. by intros ->. Qed.

Lemma registryOnDisk_frame (w w' : World) :
  fs w' !! modulesFilePath = fs w !! modulesFilePath ->
  registryOnDisk w' = registryOnDisk w.
Proof. unfold registryOnDisk, contents. by intros ->. Qed.

Lemma getSTRMModules_on_disk (w : World) (r : STRMModulesFile) :
  getSTRMModules w = Some r -> registryOnDisk w = Some r.
Proof.
  unfold getSTRMModules, registryOnDisk, contents, readFile.
  destruct (fs w !! modulesFilePath) as [[m d|]|]; [|done..].
  by destruct (readable m).
Qed.

Lemma getSTRMModules_None (w : World) :
  getSTRMModules w = None <-> registryUnavailable w.
Proof.
  unfold getSTRMModules, readFile, registryUnavailable.
  destruct (fs w !! modulesFilePath) as [[m d|]|] eqn:E.
  - destruct (readable m) eqn:Hm.
    + split; [intros Hp; right; right; eauto|].
      intros [?|[?|(m' & d' & [= <- <-] & [?|?])]]; congruence.
    + split; [intros _; right; right; eauto | done].
  - split; [auto | done].
  - split; [auto | done].
Qed.

Lemma settingKept_refl (w : World) : settingKept w w.
Proof. by repeat split. Qed.

Lemma settingKept_trans (w1 w2 w3 : World) :
  settingKept w1 w2 -> settingKept w2 w3 -> settingKept w1 w3.
Proof.
  intros (Hc & Hb & Hr) (Hc' & Hb' & Hr'). repeat split; try congruence. lia.
Qed.

(** ** The steps of the pipeline, one by one *)

Section Steps.
Context {ext : Externals}.

(** A step that reads the date and then writes one file. *)
Ltac date_then_write :=
  unfold newDate, settingKept; simpl;
  let E := fresh "E" in
  destruct (writeFile _ _ _) as [?|?] eqn:E; simpl; [repeat split; lia|];
  apply writeFile_inv in E as [? ->]; simpl; repeat split; eauto; lia.

Lemma writeSTRMModulesFile_spec (r : STRMModulesFile) (w : World) :
  let step := writeSTRMModulesFile r w in
  let stamped := setLastUpdated r (toISOString (clock w (reads w))) in
  settingKept w (snd step) /\ reads (snd step) = S (reads w) /\
  if success (fst step)
  then exists m, fs (snd step) = <[modulesFilePath := File m (JSON_stringify stamped)]> (fs w)
  else fs (snd step) = fs w.
Proof. unfold writeSTRMModulesFile. date_then_write. Qed.

Lemma writeSTRMModelFile_spec (n : string) (w : World) :
  let step := writeSTRMModelFile n w in
  let data := modelFileData (STORM_BRANDED w) (toLocaleDateString (clock w (reads w))) n in
  settingKept w (snd step) /\ reads (snd step) = S (reads w) /\
  if success (fst step)
  then exists m, fs (snd step) = <[modelFilePath n := File m (Text data)]> (fs w)
  else fs (snd step) = fs w.
Proof. unfold writeSTRMModelFile. date_then_write. Qed.

Lemma writeSTRMControllerFile_spec (n : string) (w : World) :
  let step := writeSTRMControllerFile n w in
  let data := controllerData (STORM_BRANDED w) (toLocaleDateString (clock w (reads w))) n in
  settingKept w (snd step) /\ reads (snd step) = S (reads w) /\
  if success (fst step)
  then exists m, fs (snd step) = <[controllerFilePath n := File m (Text data)]> (fs w)
  else fs (snd step) = fs w.
Proof. unfold writeSTRMControllerFile. date_then_write. Qed.

Lemma regenerateSTRMModuleRoutes_spec (w : World) :
  let step := regenerateSTRMModuleRoutes w in
  settingKept w (snd step) /\
  if success (fst step)
  then exists r m,
    getSTRMModules w = Some r /\ reads (snd step) = S (reads w) /\
    fs (snd step)
    = <[routesFilePath :=
          File m (Text (routesString (STORM_BRANDED w)
                          (toLocaleDateString (clock w (reads w)))
                          (controllerRoutesString r)))]> (fs w)
  else fs (snd step) = fs w.
Proof.
  unfold regenerateSTRMModuleRoutes, newDate, settingKept.
  destruct (getSTRMModules w) as [r|]; simpl; [|by repeat split].
  destruct (writeFile _ _ _) as [e|w2] eqn:E; simpl; [repeat split; lia|].
  apply writeFile_inv in E as [m ->]. simpl. repeat split; eauto; lia.
Qed.

Lemma updateSTRMModuleRouteAutoImports_spec (n : string) (w : World) :
  let step := updateSTRMModuleRouteAutoImports n w in
  let data := match contents w autoImportPath with
              | Some d => appendData d (autoImportData n)
              | None => Text (autoImportData n)
              end in
  settingKept w (snd step) /\ reads (snd step) = reads w /\
  if success (fst step)
  then exists m, fs (snd step) = <[autoImportPath := File m data]> (fs w)
  else snd step = w.
Proof.
  unfold updateSTRMModuleRouteAutoImports, settingKept.
  destruct (appendFile _ _ _) as [e|w2] eqn:E; simpl; [by repeat split|].
  apply appendFile_inv in E as [m ->]. simpl. repeat split; eauto.
Qed.

Lemma writePages_frame (cfg : STRMConfigFile) (base : fspath) (module : STRMModule)
  (ps : list STRMFERoute) (w : World) (p : fspath) :
  length p <> S (length base) ->
  fs (snd (writePages cfg base module ps w)) !! p = fs w !! p /\
  settingKept w (snd (writePages cfg base module ps w)) /\
  reads (snd (writePages cfg base module ps w)) = reads w.
Proof.
  intros Hp. revert w. induction ps as [|page rest IH]; intros w; simpl.
  - split; [done|]. split; [apply settingKept_refl | done].
  - destruct (writeFile _ _ _) as [e|w'] eqn:E; simpl.
    + split; [done|]. split; [apply settingKept_refl | done].
    + apply writeFile_inv in E as [m Hw'].
      destruct (IH w') as (Hf & Hs & Hr).
      rewrite Hf, Hr. subst w'. simpl. rewrite lookup_insert_ne.
      * split; [done|]. split; [|done]. destruct Hs as (? & ? & ?). by repeat split.
      * intros <-. rewrite length_app in Hp. simpl in Hp. lia.
Qed.

Lemma buildSTRMFrontendComponents_frame (k pl : string) (w : World) (p : fspath) :
  (length p < 4)%nat ->
  fs (snd (buildSTRMFrontendComponents k pl w)) !! p = fs w !! p /\
  settingKept w (snd (buildSTRMFrontendComponents k pl w)) /\
  reads (snd (buildSTRMFrontendComponents k pl w)) = reads w.
Proof.
  intros Hp. unfold buildSTRMFrontendComponents.
  destruct (getProjectConfig w) as [cfg|]; [|by split; [|split; [apply settingKept_refl|]]].
  destruct (getSTRMModules w) as [r|]; [|by split; [|split; [apply settingKept_refl|]]].
  destruct (mkdir _ _) as [e|w1] eqn:E; [by split; [|split; [apply settingKept_refl|]]|].
  apply mkdir_inv in E as [_ ->].
  assert (Hbase : fs (withFs w (<[feBasePath cfg pl := Dir]> (fs w))) !! p = fs w !! p).
  { simpl. apply lookup_insert_ne. intros <-. simpl in Hp. lia. }
  assert (Hkept : settingKept w (withFs w (<[feBasePath cfg pl := Dir]> (fs w))))
    by by repeat split.
  destruct (JS.get k (modules r)) as [[module|]|]; [|by repeat split..].
  destruct (writePages_frame cfg (feBasePath cfg pl) module (pages module)
              (withFs w (<[feBasePath cfg pl := Dir]> (fs w))) p) as (Hf & Hs & Hr).
  { simpl. lia. }
  destruct (writePages _ _ _ _ _) as [[e|] w2]; simpl in *; rewrite Hf, Hbase, Hr;
    (split; [done|]; split; [|done]); destruct Hs as (? & ? & ?); by repeat split.
Qed.

(** A step touches one path only: from its description [H], a success
    inserts at that path and a failure changes nothing. *)
Ltac untouched H :=
  cbv zeta in H;
  destruct (success _); [destruct H as [? ->]; by rewrite lookup_insert_ne | by rewrite H].

Lemma writeSTRMModulesFile_frame (r : STRMModulesFile) (w : World) (p : fspath) :
  p <> modulesFilePath -> fs (snd (writeSTRMModulesFile r w)) !! p = fs w !! p.
Proof.
  intros Hp. pose proof (writeSTRMModulesFile_spec r w) as (_ & _ & H). untouched H.
Qed.

Lemma writeSTRMModelFile_frame (n : string) (w : World) (p : fspath) :
  p <> modelFilePath n -> fs (snd (writeSTRMModelFile n w)) !! p = fs w !! p.
Proof.
  intros Hp. pose proof (writeSTRMModelFile_spec n w) as (_ & _ & H). untouched H.
Qed.

Lemma writeSTRMControllerFile_frame (n : string) (w : World) (p : fspath) :
  p <> controllerFilePath n -> fs (snd (writeSTRMControllerFile n w)) !! p = fs w !! p.
Proof.
  intros Hp. pose proof (writeSTRMControllerFile_spec n w) as (_ & _ & H). untouched H.
Qed.

Lemma regenerateSTRMModuleRoutes_frame (w : World) (p : fspath) :
  p <> routesFilePath -> fs (snd (regenerateSTRMModuleRoutes w)) !! p = fs w !! p.
Proof.
  intros Hp. pose proof (regenerateSTRMModuleRoutes_spec w) as (_ & H). cbv zeta in H.
  destruct (success _); [|by rewrite H].
  destruct H as (r & m & _ & _ & ->). by rewrite lookup_insert_ne.
Qed.

Lemma updateSTRMModuleRouteAutoImports_frame (n : string) (w : World) (p : fspath) :
  p <> autoImportPath ->
  fs (snd (updateSTRMModuleRouteAutoImports n w)) !! p = fs w !! p.
Proof.
  intros Hp. pose proof (updateSTRMModuleRouteAutoImports_spec n w) as (_ & _ & H).
  untouched H.
Qed.

(** A successful write of a registry that could be read leaves a registry
    file that can be read back. *)
Lemma writeSTRMModulesFile_readable (r0 r : STRMModulesFile) (w : World) :
  getSTRMModules w = Some r0 ->
  success (fst (writeSTRMModulesFile r w)) = true ->
  getSTRMModules (snd (writeSTRMModulesFile r w))
  = Some (setLastUpdated r (toISOString (clock w (reads w)))).
Proof.
  unfold getSTRMModules, readFile, writeSTRMModulesFile, newDate, writeFile. simpl.
  destruct (fs w !! modulesFilePath) as [[m d|]|]; [|done..].
  destruct (readable m) eqn:Hm; [|done]. intros _.
  destruct (writable m); [|done]. simpl. intros _.
  by rewrite lookup_insert_eq, Hm.
Qed.

Lemma path_facts (n : string) :
  modelFilePath n <> modulesFilePath /\ controllerFilePath n <> modulesFilePath /\
  routesFilePath <> modulesFilePath /\ autoImportPath <> modulesFilePath /\
  controllerFilePath n <> modelFilePath n /\ routesFilePath <> modelFilePath n /\
  autoImportPath <> modelFilePath n /\ routesFilePath <> controllerFilePath n /\
  autoImportPath <> controllerFilePath n /\ autoImportPath <> routesFilePath.
Proof.
  unfold modelFilePath, controllerFilePath, modulesFilePath, routesFilePath, autoImportPath.
  repeat split; try discriminate.
  intros [= H]. apply (f_equal String.length) in H.
  rewrite length_append in H. simpl in H. lia.
Qed.

(** ** The pipeline as a whole *)

(** [createSTRMModule] once the registry is loaded, step by step. *)
Lemma createSTRMModule_steps (moduleArgs : STRMModuleArgs) (w : World)
  (r : STRMModulesFile) :
  getSTRMModules w = Some r ->
  let n := Args.name moduleArgs in
  let s1 := writeSTRMModulesFile (setModule r n (buildSTRMModule moduleArgs)) w in
  let s2 := writeSTRMModelFile n (snd s1) in
  let s3 := writeSTRMControllerFile n (snd s2) in
  let s4 := regenerateSTRMModuleRoutes (snd s3) in
  let s5 := updateSTRMModuleRouteAutoImports n (snd s4) in
  let s6 := buildSTRMFrontendComponents n (pluralizedName moduleArgs) (snd s5) in
  createSTRMModule moduleArgs w =
    if negb (success (fst s1))
    then (setMessage buildScaffoldOutput (Some "Failed to write Modules"), snd s1)
    else if negb (success (fst s2))
    then (setMessage buildScaffoldOutput (message (fst s2)), snd s2)
    else if negb (success (fst s3))
    then (setMessage buildScaffoldOutput (message (fst s3)), snd s3)
    else if negb (success (fst s4))
    then (setMessage buildScaffoldOutput (message (fst s4)), snd s4)
    else if negb (success (fst s5))
    then (setMessage buildScaffoldOutput (message (fst s5)), snd s5)
    else if negb (success (fst s6))
    then (setMessage buildScaffoldOutput (message (fst s6)), snd s6)
    else (setSuccess buildScaffoldOutput, snd s6).
Proof.
  intros Hr n s1 s2 s3 s4 s5 s6. unfold createSTRMModule. rewrite Hr.
  fold n. subst s6 s5 s4 s3 s2 s1.
  destruct (writeSTRMModulesFile _ w) as [o1 w1]. cbn [fst snd].
  destruct (writeSTRMModelFile n w1) as [o2 w2]. cbn [fst snd].
  destruct (writeSTRMControllerFile n w2) as [o3 w3]. cbn [fst snd].
  destruct (regenerateSTRMModuleRoutes w3) as [o4 w4]. cbn [fst snd].
  destruct (updateSTRMModuleRouteAutoImports n w4) as [o5 w5]. cbn [fst snd].
  destruct (buildSTRMFrontendComponents n _ w5) as [o6 w6]. cbn [fst snd].
  reflexivity.
Qed.

(** The world after the registry, model and controller steps succeeded. *)
Lemma after_controller (moduleArgs : STRMModuleArgs) (w w1 w2 w3 : World)
  (r : STRMModulesFile) :
  let n := Args.name moduleArgs in
  let updated := setModule r n (buildSTRMModule moduleArgs) in
  succeeds (writeSTRMModulesFile updated w) w1 ->
  succeeds (writeSTRMModelFile n w1) w2 ->
  succeeds (writeSTRMControllerFile n w2) w3 ->
  registryOnDisk w3 = Some (setLastUpdated updated (toISOString (clock w (reads w)))) /\
  contents w3 (modelFilePath n)
  = Some (Text (modelFileData (STORM_BRANDED w1)
                  (toLocaleDateString (clock w1 (reads w1))) n)) /\
  contents w3 (controllerFilePath n)
  = Some (Text (controllerData (STORM_BRANDED w2)
                  (toLocaleDateString (clock w2 (reads w2))) n)) /\
  (forall p, p <> modulesFilePath -> p <> modelFilePath n -> p <> controllerFilePath n ->
             fs w3 !! p = fs w !! p) /\
  (fs w !! modulesFilePath = None \/ exists m d, fs w !! modulesFilePath = Some (File m d)) /\
  settingKept w w3.
Proof.
  intros n updated [H1 <-] [H2 <-] [H3 <-].
  pose proof (writeSTRMModulesFile_spec updated w) as (K1 & _ & F1).
  cbv zeta in F1. rewrite H1 in F1. destruct F1 as [m1 F1].
  set (w1 := snd (writeSTRMModulesFile updated w)) in *.
  pose proof (writeSTRMModelFile_spec n w1) as (K2 & _ & F2).
  cbv zeta in F2. rewrite H2 in F2. destruct F2 as [m2 F2].
  set (w2 := snd (writeSTRMModelFile n w1)) in *.
  pose proof (writeSTRMControllerFile_spec n w2) as (K3 & _ & F3).
  cbv zeta in F3. rewrite H3 in F3. destruct F3 as [m3 F3].
  set (w3 := snd (writeSTRMControllerFile n w2)) in *.
  destruct (path_facts n) as (P1 & P2 & P3 & P4 & P5 & P6 & P7 & P8 & P9 & P10).
  split_and!.
  - unfold registryOnDisk, contents. rewrite F3, F2, F1.
    rewrite lookup_insert_ne, lookup_insert_ne, lookup_insert_eq by done. reflexivity.
  - unfold contents. rewrite F3, F2.
    rewrite lookup_insert_ne, lookup_insert_eq by done. reflexivity.
  - unfold contents. rewrite F3. by rewrite lookup_insert_eq.
  - intros p Hp1 Hp2 Hp3. rewrite F3, F2, F1. by rewrite !lookup_insert_ne.
  - destruct (fs w !! modulesFilePath) as [[m d|]|] eqn:E; eauto.
    exfalso. revert H1. unfold writeSTRMModulesFile, newDate, writeFile. simpl.
    by rewrite E.
  - eapply settingKept_trans; [exact K1|]. eapply settingKept_trans; [exact K2|exact K3].
Qed.

(** After the registry step no step of [createSTRMModule] touches the
    registry file. *)
Lemma createSTRMModule_registry_frame (moduleArgs : STRMModuleArgs) (w : World)
  (r : STRMModulesFile) :
  getSTRMModules w = Some r ->
  let n := Args.name moduleArgs in
  let s1 := writeSTRMModulesFile (setModule r n (buildSTRMModule moduleArgs)) w in
  fs (snd (createSTRMModule moduleArgs w)) !! modulesFilePath
  = fs (snd s1) !! modulesFilePath.
Proof.
  intros Hr n s1. rewrite (createSTRMModule_steps moduleArgs w r Hr). cbv zeta.
  fold n. fold s1.
  destruct (path_facts n) as (P1 & P2 & P3 & P4 & _).
  set (s2 := writeSTRMModelFile n (snd s1)).
  set (s3 := writeSTRMControllerFile n (snd s2)).
  set (s4 := regenerateSTRMModuleRoutes (snd s3)).
  set (s5 := updateSTRMModuleRouteAutoImports n (snd s4)).
  set (s6 := buildSTRMFrontendComponents n (pluralizedName moduleArgs) (snd s5)).
  assert (E2 : fs (snd s2) !! modulesFilePath = fs (snd s1) !! modulesFilePath)
    by (apply writeSTRMModelFile_frame; auto).
  assert (E3 : fs (snd s3) !! modulesFilePath = fs (snd s1) !! modulesFilePath)
    by (rewrite <- E2; apply writeSTRMControllerFile_frame; auto).
  assert (E4 : fs (snd s4) !! modulesFilePath = fs (snd s1) !! modulesFilePath)
    by (rewrite <- E3; apply regenerateSTRMModuleRoutes_frame; auto).
  assert (E5 : fs (snd s5) !! modulesFilePath = fs (snd s1) !! modulesFilePath)
    by (rewrite <- E4; apply updateSTRMModuleRouteAutoImports_frame; auto).
  assert (E6 : fs (snd s6) !! modulesFilePath = fs (snd s1) !! modulesFilePath).
  { rewrite <- E5. apply buildSTRMFrontendComponents_frame. simpl. lia. }
  repeat (destruct (negb _); [done|]). done.
Qed.

(** A successful run went through all six steps. *)
Lemma createSTRMModule_success_inv (moduleArgs : STRMModuleArgs) (w : World) :
  success (fst (createSTRMModule moduleArgs w)) = true ->
  let n := Args.name moduleArgs in
  exists r w1 w2 w3 w4 w5,
    getSTRMModules w = Some r /\
    succeeds (writeSTRMModulesFile (setModule r n (buildSTRMModule moduleArgs)) w) w1 /\
    succeeds (writeSTRMModelFile n w1) w2 /\
    succeeds (writeSTRMControllerFile n w2) w3 /\
    succeeds (regenerateSTRMModuleRoutes w3) w4 /\
    succeeds (updateSTRMModuleRouteAutoImports n w4) w5 /\
    succeeds (buildSTRMFrontendComponents n (pluralizedName moduleArgs) w5)
      (snd (createSTRMModule moduleArgs w)).
Proof.
  intros Hok n. destruct (getSTRMModules w) as [r|] eqn:Hr.
  2: { unfold createSTRMModule in Hok. by rewrite Hr in Hok. }
  rewrite (createSTRMModule_steps moduleArgs w r Hr) in Hok |- *.
  cbv zeta in Hok |- *. fold n in Hok |- *.
  set (s1 := writeSTRMModulesFile (setModule r n (buildSTRMModule moduleArgs)) w) in *.
  set (s2 := writeSTRMModelFile n (snd s1)) in *.
  set (s3 := writeSTRMControllerFile n (snd s2)) in *.
  set (s4 := regenerateSTRMModuleRoutes (snd s3)) in *.
  set (s5 := updateSTRMModuleRouteAutoImports n (snd s4)) in *.
  set (s6 := buildSTRMFrontendComponents n (pluralizedName moduleArgs) (snd s5)) in *.
  destruct (success (fst s1)) eqn:H1; [|done].
  destruct (success (fst s2)) eqn:H2; [|done].
  destruct (success (fst s3)) eqn:H3; [|done].
  destruct (success (fst s4)) eqn:H4; [|done].
  destruct (success (fst s5)) eqn:H5; [|done].
  destruct (success (fst s6)) eqn:H6; [|done].
  cbn [negb snd].
  exists r, (snd s1), (snd s2), (snd s3), (snd s4), (snd s5).
  by repeat split.
Qed.

End Steps.

(** ** The claims *)

Section Claims.
Context {ext : Externals}.

(** C1 (amended): the rebuilt route file is a function of the registry's
    modules map (with its order), the branding string and the locale date
    string of the moment of the rebuild: two rebuilds that agree on these
    write byte-identical files, and a rebuild leaves the registry as it was. *)
Theorem C1_rebuild_determined_by_modules_brand_and_date
  (w w' : World) (r r' : STRMModulesFile) :
  getSTRMModules w = Some r ->
  getSTRMModules w' = Some r' ->
  modules r = modules r' ->
  STORM_BRANDED w = STORM_BRANDED w' ->
  toLocaleDateString (clock w (reads w)) = toLocaleDateString (clock w' (reads w')) ->
  success (fst (regenerateSTRMModuleRoutes w)) = true ->
  success (fst (regenerateSTRMModuleRoutes w')) = true ->
  contents (snd (regenerateSTRMModuleRoutes w)) routesFilePath
  = contents (snd (regenerateSTRMModuleRoutes w')) routesFilePath /\
  contents (snd (regenerateSTRMModuleRoutes w)) routesFilePath
  = Some (Text (routesString (STORM_BRANDED w)
                  (toLocaleDateString (clock w (reads w)))
                  (controllerRoutesString r))) /\
  getSTRMModules (snd (regenerateSTRMModuleRoutes w)) = Some r.
Proof.
  intros Hr Hr' Hm Hb Hd Hs Hs'.
  pose proof (regenerateSTRMModuleRoutes_spec w) as [_ H].
  pose proof (regenerateSTRMModuleRoutes_spec w') as [_ H'].
  cbv zeta in H, H'. rewrite Hs in H. rewrite Hs' in H'.
  destruct H as (r0 & m & Hr0 & _ & Hfs), H' as (r0' & m' & Hr0' & _ & Hfs').
  rewrite Hr in Hr0. rewrite Hr' in Hr0'. simplify_eq.
  rewrite (contents_insert _ _ _ _ _ Hfs), (contents_insert _ _ _ _ _ Hfs').
  rewrite <- Hb, <- Hd, (controllerRoutesString_modules _ _ Hm).
  split; [done|]. split; [done|].
  rewrite <- Hr. apply getSTRMModules_frame. rewrite Hfs.
  by apply lookup_insert_ne.
Qed.

(** C2 (amended): for a registry with keys [K], the rebuilt route table holds,
    in registry order, the two bindings [Route('/E', C')] and
    [Route('/E/{K}', C')] of every entry that has a descriptor ([E] its
    endpoint base, [C'] its controller name with each underscore-delimited
    word capitalised); a newline follows the bindings of all but the last
    emitted module, and also those of the last emitted module when the
    registry ends in a skipped entry. *)
Theorem C2_route_table (w : World) (r : STRMModulesFile) :
  getSTRMModules w = Some r ->
  NoDup (JS.keys (modules r)) ->
  success (fst (regenerateSTRMModuleRoutes w)) = true ->
  let block :=
    routesAsSpecified (emitted (modules r)) +:+
    (if skippedAtEnd (modules r) then nl else EmptyString) in
  controllerRoutesString r = block /\
  contents (snd (regenerateSTRMModuleRoutes w)) routesFilePath
  = Some (Text (routesString (STORM_BRANDED w)
                  (toLocaleDateString (clock w (reads w))) block)).
Proof.
  intros Hr Hnd Hs block.
  assert (Hb : controllerRoutesString r = block).
  { rewrite (controllerRoutesString_by_position r Hnd).
    apply routesByPosition_as_specified. }
  split; [done|].
  pose proof (regenerateSTRMModuleRoutes_spec w) as [_ H].
  cbv zeta in H. rewrite Hs in H. destruct H as (r0 & m & Hr0 & _ & Hfs).
  rewrite Hr in Hr0. simplify_eq.
  by rewrite (contents_insert _ _ _ _ _ Hfs), Hb.
Qed.

(** C3: a descriptor built by [buildSTRMModule] is controller-only exactly
    when it has no pages; otherwise it has exactly two pages, the index page
    (path [/plural], component path ending in [/Index]) followed by the
    detail page (path [/plural/:id], component name ending in [Detail]). *)
Theorem C3_page_count_invariant (moduleArgs : STRMModuleArgs) :
  let D := buildSTRMModule moduleArgs in
  let n := Args.name moduleArgs in
  let pl := pluralizedName moduleArgs in
  (controllerOnly D = true <-> length (pages D) = 0%nat) /\
  length (pages D) = (if controllerOnly D then 0 else 2)%nat /\
  pages D =
    (if controllerOnly D then []
     else [ {| path := "/" +:+ pl;
               componentName := titleCase n;
               componentPath := titleCase pl +:+ "/Index" |};
            {| path := "/" +:+ pl +:+ "/:id";
               componentName := titleCase n +:+ "Detail";
               componentPath := titleCase pl +:+ "/" +:+ titleCase n |} ]).
Proof.
  unfold buildSTRMModule, flag. simpl.
  destruct (Args.controllerOnly moduleArgs) as [[]|]; simpl; repeat split; done.
Qed.

(** C4: creating a module under key [K] stores the new descriptor under [K]
    by assignment: afterwards the registry file has exactly one entry for
    [K], holding the new descriptor; when [K] was already there the list of
    keys is the same as before; every other key reads as before. *)
Theorem C4_upsert_single_entry (moduleArgs : STRMModuleArgs) (w : World)
  (r : STRMModulesFile) :
  let K := Args.name moduleArgs in
  let D := buildSTRMModule moduleArgs in
  getSTRMModules w = Some r ->
  NoDup (JS.keys (modules r)) ->
  success (fst (writeSTRMModulesFile (setModule r K D) w)) = true ->
  exists r',
    getSTRMModules (snd (createSTRMModule moduleArgs w)) = Some r' /\
    modules r' = JS.set K (Some D) (modules r) /\
    JS.get K (modules r') = Some (Some D) /\
    length (filter (eq K) (JS.keys (modules r'))) = 1%nat /\
    NoDup (JS.keys (modules r')) /\
    (K ∈ JS.keys (modules r) -> JS.keys (modules r') = JS.keys (modules r)) /\
    (forall K', K' <> K -> JS.get K' (modules r') = JS.get K' (modules r)) /\
    appId r' = appId r.
Proof.
  intros K D Hr Hnd Hs.
  exists (setLastUpdated (setModule r K D) (toISOString (clock w (reads w)))).
  assert (Hnd' : NoDup (JS.keys (JS.set K (Some D) (modules r))))
    by by apply keys_set_NoDup.
  split_and!; simpl.
  - rewrite <- (writeSTRMModulesFile_readable r _ w Hr Hs).
    apply getSTRMModules_frame.
    apply (createSTRMModule_registry_frame moduleArgs w r Hr).
  - reflexivity.
  - apply get_set_eq.
  - apply NoDup_filter_one; [done|].
    destruct (decide (K ∈ JS.keys (modules r))) as [Hin|Hin].
    + by rewrite keys_set_present.
    + rewrite keys_set_absent by done. apply elem_of_app. right.
      by apply list_elem_of_singleton.
  - done.
  - apply keys_set_present.
  - intros K' HK'. apply get_set_ne. congruence.
  - reflexivity.
Qed.

(** C5: when the registry cannot be loaded (file missing, unreadable or not
    parseable), [createSTRMModule] reports failure and leaves the world
    exactly as it found it: nothing is written, appended or created. *)
Theorem C5_registry_unavailable (moduleArgs : STRMModuleArgs) (w : World) :
  registryUnavailable w ->
  createSTRMModule moduleArgs w
  = ({| success := false; message := Some "Failed to read STRMModules file" |}, w).
Proof.
  intros Hu. apply getSTRMModules_None in Hu.
  unfold createSTRMModule. by rewrite Hu.
Qed.

(** C6: when the registry, model and controller steps succeeded and the
    route-table rewrite fails, [createSTRMModule] reports failure with the
    rewrite's message and stops: the file system is the one the controller
    step left, holding the updated registry and the model and controller
    files, and every other path (the auto-import file, the frontend pages)
    is as it was before the run. *)
Theorem C6_route_rewrite_failure (moduleArgs : STRMModuleArgs) (w w1 w2 w3 : World)
  (r : STRMModulesFile) :
  let n := Args.name moduleArgs in
  let updated := setModule r n (buildSTRMModule moduleArgs) in
  getSTRMModules w = Some r ->
  succeeds (writeSTRMModulesFile updated w) w1 ->
  succeeds (writeSTRMModelFile n w1) w2 ->
  succeeds (writeSTRMControllerFile n w2) w3 ->
  success (fst (regenerateSTRMModuleRoutes w3)) = false ->
  let out := createSTRMModule moduleArgs w in
  success (fst out) = false /\
  message (fst out) = message (fst (regenerateSTRMModuleRoutes w3)) /\
  fs (snd out) = fs w3 /\
  registryOnDisk (snd out)
  = Some (setLastUpdated updated (toISOString (clock w (reads w)))) /\
  contents (snd out) (modelFilePath n)
  = Some (Text (modelFileData (STORM_BRANDED w1)
                  (toLocaleDateString (clock w1 (reads w1))) n)) /\
  contents (snd out) (controllerFilePath n)
  = Some (Text (controllerData (STORM_BRANDED w2)
                  (toLocaleDateString (clock w2 (reads w2))) n)) /\
  contents (snd out) autoImportPath = contents w autoImportPath /\
  (forall p, p <> modulesFilePath -> p <> modelFilePath n -> p <> controllerFilePath n ->
             fs (snd out) !! p = fs w !! p).
Proof.
  intros n updated Hr S1 S2 S3 Hfail out.
  destruct (after_controller moduleArgs w w1 w2 w3 r S1 S2 S3)
    as (Hreg & Hmodel & Hctrl & Hframe & _ & _).
  pose proof (regenerateSTRMModuleRoutes_spec w3) as [_ F4].
  cbv zeta in F4. rewrite Hfail in F4.
  assert (Hout : out = (setMessage buildScaffoldOutput
                          (message (fst (regenerateSTRMModuleRoutes w3))),
                        snd (regenerateSTRMModuleRoutes w3))).
  { subst out. rewrite (createSTRMModule_steps moduleArgs w r Hr). cbv zeta.
    fold n. fold updated. destruct S1 as [-> ->], S2 as [-> ->], S3 as [-> ->].
    by rewrite Hfail. }
  rewrite Hout. cbn [fst snd setMessage success message buildScaffoldOutput].
  destruct (path_facts n) as (P1 & P2 & P3 & P4 & P5 & P6 & P7 & P8 & P9 & P10).
  split_and!; try done.
  - by rewrite (registryOnDisk_frame w3) by by rewrite F4.
  - by rewrite (contents_frame w3) by by rewrite F4.
  - by rewrite (contents_frame w3) by by rewrite F4.
  - rewrite (contents_frame w3) by by rewrite F4.
    apply contents_frame. by apply Hframe.
  - intros p ? ? ?. rewrite F4. by apply Hframe.
Qed.

(** C7 (amended): a successful registry write stamps [lastUpdated] with the
    ISO rendering of the clock reading taken at that write, whatever the
    value it replaces; so across two successful writes the stamp strictly
    increases exactly when the second reading renders strictly greater than
    the first. *)
Theorem C7_lastUpdated_is_the_clock_reading
  (r1 r2 : STRMModulesFile) (w1 w2 : World) :
  success (fst (writeSTRMModulesFile r1 w1)) = true ->
  success (fst (writeSTRMModulesFile r2 w2)) = true ->
  let t1 := toISOString (clock w1 (reads w1)) in
  let t2 := toISOString (clock w2 (reads w2)) in
  let after1 := snd (writeSTRMModulesFile r1 w1) in
  let after2 := snd (writeSTRMModulesFile r2 w2) in
  registryOnDisk after1 = Some (setLastUpdated r1 t1) /\
  registryOnDisk after2 = Some (setLastUpdated r2 t2) /\
  lastUpdatedOnDisk after1 = Some t1 /\
  lastUpdatedOnDisk after2 = Some t2 /\
  ((exists a b, lastUpdatedOnDisk after1 = Some a /\ lastUpdatedOnDisk after2 = Some b /\
                String.ltb a b = true)
   <-> String.ltb t1 t2 = true).
Proof.
  intros H1 H2 t1 t2 after1 after2.
  assert (Hreg : forall r w, success (fst (writeSTRMModulesFile r w)) = true ->
            registryOnDisk (snd (writeSTRMModulesFile r w))
            = Some (setLastUpdated r (toISOString (clock w (reads w))))).
  { intros r w Hs. pose proof (writeSTRMModulesFile_spec r w) as (_ & _ & H).
    cbv zeta in H. rewrite Hs in H. destruct H as [m Hfs].
    unfold registryOnDisk. by rewrite (contents_insert _ _ _ _ _ Hfs). }
  pose proof (Hreg r1 w1 H1) as Ha. pose proof (Hreg r2 w2 H2) as Hb.
  fold after1 t1 in Ha. fold after2 t2 in Hb.
  unfold lastUpdatedOnDisk. rewrite Ha, Hb. simpl.
  repeat split; try done.
  - intros (a & b & [= <-] & [= <-] & Hlt). done.
  - intros Hlt. eauto.
Qed.

(** C8: the endpoint base and the frontend route paths use the plural
    override when one is given (a non-empty string) and the module name
    itself otherwise, never a derived plural; module [category] with plural
    [categories] gets endpoint base [categories]. *)
Theorem C8_pluralized_name (moduleArgs : STRMModuleArgs) :
  let D := buildSTRMModule moduleArgs in
  let pl := match Args.plural moduleArgs with
            | Some (String c s) => String c s
            | Some EmptyString | None => Args.name moduleArgs
            end in
  pluralizedName moduleArgs = pl /\
  endpointBase (controller D) = pl /\
  map path (pages D)
  = (if controllerOnly D then [] else ["/" +:+ pl; "/" +:+ pl +:+ "/:id"]) /\
  map componentPath (pages D)
  = (if controllerOnly D then []
     else [titleCase pl +:+ "/Index";
           titleCase pl +:+ "/" +:+ titleCase (Args.name moduleArgs)]) /\
  endpointBase (controller (buildSTRMModule categoryArgs)) = "categories" /\
  endpointBase (controller (buildSTRMModule bookArgs)) = "book".
Proof.
  unfold buildSTRMModule, pluralizedName, flag. simpl.
  destruct (Args.plural moduleArgs) as [[|c s]|];
    destruct (Args.controllerOnly moduleArgs) as [[]|]; simpl; repeat split; done.
Qed.

(** C9: the registry records [controllerName = lowercase(N) + "_controller"]
    and [modelName = lowercase(N) + ".py"], while a successful run writes
    the model to [strm_models/N.py] and the controller to
    [strm_controllers/N_controller.py]; the recorded names name the written
    files exactly when [N] has no upper-case letter. *)
Theorem C9_recorded_names_and_written_paths (moduleArgs : STRMModuleArgs) (w : World) :
  let N := Args.name moduleArgs in
  let D := buildSTRMModule moduleArgs in
  let out := createSTRMModule moduleArgs w in
  success (fst out) = true ->
  controllerName (controller D) = JS.toLowerCase N +:+ "_controller" /\
  modelName (controller D) = JS.toLowerCase N +:+ ".py" /\
  (exists r', registryOnDisk (snd out) = Some r' /\
              JS.get N (modules r') = Some (Some D)) /\
  (exists date, contents (snd out) ["strm_models"; N +:+ ".py"]
                = Some (Text (modelFileData (STORM_BRANDED w) date N))) /\
  (exists date, contents (snd out) ["strm_controllers"; N +:+ "_controller.py"]
                = Some (Text (controllerData (STORM_BRANDED w) date N))) /\
  ((["strm_models"; modelName (controller D)] = ["strm_models"; N +:+ ".py"] /\
    ["strm_controllers"; controllerName (controller D) +:+ ".py"]
    = ["strm_controllers"; N +:+ "_controller.py"])
   <-> isLowercase N = true).
Proof.
  intros N D out Hok.
  assert (Hagree :
    (["strm_models"; modelName (controller D)] = ["strm_models"; N +:+ ".py"] /\
     ["strm_controllers"; controllerName (controller D) +:+ ".py"]
     = ["strm_controllers"; N +:+ "_controller.py"])
    <-> isLowercase N = true).
  { rewrite <- toLowerCase_fixed. subst D. unfold buildSTRMModule. simpl. fold N.
    rewrite append_assoc.
    change ("_controller" +:+ ".py") with "_controller.py".
    split.
    - intros [[= H] _]. by apply append_cancel_lower in H.
    - intros ->. done. }
  destruct (createSTRMModule_success_inv moduleArgs w Hok)
    as (r & w1 & w2 & w3 & w4 & w5 & Hr & S1 & S2 & S3 & S4 & S5 & S6).
  fold N D out in S1, S2, S3, S5, S6.
  destruct (after_controller moduleArgs w w1 w2 w3 r S1 S2 S3)
    as (Hreg & Hmodel & Hctrl & _ & _ & _).
  fold N D in Hreg, Hmodel, Hctrl.
  destruct (path_facts N) as (P1 & P2 & P3 & P4 & P5 & P6 & P7 & P8 & P9 & P10).
  assert (Hlater : forall p, (length p < 4)%nat -> p <> routesFilePath ->
            p <> autoImportPath -> fs (snd out) !! p = fs w3 !! p).
  { intros p Hlen Hp1 Hp2. destruct S4 as [_ <-], S5 as [_ <-], S6 as [_ E6].
    rewrite <- E6.
    rewrite (proj1 (buildSTRMFrontendComponents_frame _ _ _ _ Hlen)).
    rewrite updateSTRMModuleRouteAutoImports_frame by done.
    by rewrite regenerateSTRMModuleRoutes_frame by done. }
  split_and!; try done.
  - exists (setLastUpdated (setModule r N D) (toISOString (clock w (reads w)))).
    split; [|apply get_set_eq]. rewrite <- Hreg.
    apply registryOnDisk_frame, Hlater; [simpl; lia|auto..].
  - pose proof (writeSTRMModulesFile_spec (setModule r N D) w) as ((_ & Hb & _) & _).
    destruct S1 as [_ E1]. rewrite E1 in Hb. rewrite Hb in Hmodel.
    eexists. rewrite <- Hmodel.
    apply contents_frame, Hlater; [simpl; lia|auto..].
  - pose proof (writeSTRMModulesFile_spec (setModule r N D) w) as ((_ & Hb & _) & _).
    pose proof (writeSTRMModelFile_spec N w1) as ((_ & Hb' & _) & _).
    destruct S1 as [_ E1], S2 as [_ E2]. rewrite E1 in Hb. rewrite E2 in Hb'.
    rewrite Hb', Hb in Hctrl.
    eexists. rewrite <- Hctrl.
    apply contents_frame, Hlater; [simpl; lia|auto..].
Qed.

(** C10: when every step up to the auto-import append succeeded and the
    frontend pages directory of the module already exists, the
    non-recursive [mkdir] fails and [createSTRMModule] reports that failure
    (whatever the [controllerOnly] flag); the world is the one the
    auto-import step left: updated registry, model and controller files,
    rewritten route table and one more auto-import line. *)
Theorem C10_existing_pages_directory (moduleArgs : STRMModuleArgs)
  (w w1 w2 w3 w4 w5 : World) (r : STRMModulesFile) (cfg : STRMConfigFile) :
  let n := Args.name moduleArgs in
  let updated := setModule r n (buildSTRMModule moduleArgs) in
  let stamped := setLastUpdated updated (toISOString (clock w (reads w))) in
  let base := feBasePath cfg (pluralizedName moduleArgs) in
  getSTRMModules w = Some r ->
  succeeds (writeSTRMModulesFile updated w) w1 ->
  succeeds (writeSTRMModelFile n w1) w2 ->
  succeeds (writeSTRMControllerFile n w2) w3 ->
  succeeds (regenerateSTRMModuleRoutes w3) w4 ->
  succeeds (updateSTRMModuleRouteAutoImports n w4) w5 ->
  getProjectConfig w5 = Some cfg ->
  is_Some (fs w !! base) ->
  createSTRMModule moduleArgs w
  = ({| success := false;
        message := Some (fsError "EEXIST: file already exists" "mkdir" base) |}, w5) /\
  registryOnDisk w5 = Some stamped /\
  contents w5 (modelFilePath n)
  = Some (Text (modelFileData (STORM_BRANDED w1)
                  (toLocaleDateString (clock w1 (reads w1))) n)) /\
  contents w5 (controllerFilePath n)
  = Some (Text (controllerData (STORM_BRANDED w2)
                  (toLocaleDateString (clock w2 (reads w2))) n)) /\
  contents w5 routesFilePath
  = Some (Text (routesString (STORM_BRANDED w3)
                  (toLocaleDateString (clock w3 (reads w3)))
                  (controllerRoutesString stamped))) /\
  contents w5 autoImportPath
  = Some (match contents w autoImportPath with
          | Some d => appendData d (autoImportData n)
          | None => Text (autoImportData n)
          end).
Proof.
  intros n updated stamped base Hr S1 S2 S3 S4 S5 Hcfg Hbase.
  destruct (after_controller moduleArgs w w1 w2 w3 r S1 S2 S3)
    as (Hreg & Hmodel & Hctrl & Hframe & _ & _).
  fold n updated stamped in Hreg, Hmodel, Hctrl, Hframe.
  destruct (path_facts n) as (P1 & P2 & P3 & P4 & P5 & P6 & P7 & P8 & P9 & P10).
  pose proof (regenerateSTRMModuleRoutes_spec w3) as [_ F4]. cbv zeta in F4.
  pose proof (updateSTRMModuleRouteAutoImports_spec n w4) as (_ & _ & F5).
  cbv zeta in F5.
  pose proof S4 as [H4 E4]. pose proof S5 as [H5 E5].
  rewrite H4, E4 in F4. rewrite H5, E5 in F5.
  destruct F4 as (r0 & m4 & Hr0 & _ & F4). destruct F5 as [m5 F5].
  apply getSTRMModules_on_disk in Hr0 as Hr0'. rewrite Hreg in Hr0'.
  injection Hr0' as <-.
  assert (Hauto : contents w4 autoImportPath = contents w autoImportPath).
  { apply contents_frame. rewrite F4, lookup_insert_ne by done. by apply Hframe. }
  rewrite Hauto in F5.
  assert (Hmods : getSTRMModules w5 = Some stamped).
  { rewrite <- Hr0. apply getSTRMModules_frame.
    rewrite F5, F4. by rewrite !lookup_insert_ne. }
  assert (Hdir : is_Some (fs w5 !! base)).
  { rewrite F5, F4. rewrite !lookup_insert_ne by (subst base; discriminate).
    rewrite Hframe; [done|subst base; discriminate..]. }
  assert (Hfe : buildSTRMFrontendComponents n (pluralizedName moduleArgs) w5
                = (setMessage buildScaffoldOutput
                     (Some (fsError "EEXIST: file already exists" "mkdir" base)), w5)).
  { unfold buildSTRMFrontendComponents. rewrite Hcfg, Hmods.
    fold base. by rewrite (mkdir_exists base w5 Hdir). }
  split_and!.
  - rewrite (createSTRMModule_steps moduleArgs w r Hr). cbv zeta.
    fold n. fold updated.
    destruct S1 as [-> ->], S2 as [-> ->], S3 as [-> ->]. rewrite H4, E4, H5, E5.
    by rewrite Hfe.
  - rewrite <- Hreg. apply registryOnDisk_frame. rewrite F5, F4.
    by rewrite !lookup_insert_ne.
  - rewrite <- Hmodel. apply contents_frame. rewrite F5, F4.
    by rewrite !lookup_insert_ne.
  - rewrite <- Hctrl. apply contents_frame. rewrite F5, F4.
    by rewrite !lookup_insert_ne.
  - unfold contents. rewrite F5, F4.
    by rewrite lookup_insert_ne, lookup_insert_eq.
  - unfold contents at 1. rewrite F5. by rewrite lookup_insert_eq.
Qed.

End Claims.

(** ** The claims on the sample project *)

(** C1, as stated, fails: two rebuilds in a row over an unchanged registry,
    the first just before midnight and the second just after, write
    different files (the header line carries the date). *)
Lemma C1_rebuild_differs_across_midnight :
  let w := project bookRegistry midnightClock in
  let first := regenerateSTRMModuleRoutes w in
  let second := regenerateSTRMModuleRoutes (snd first) in
  success (fst first) = true /\
  success (fst second) = true /\
  getSTRMModules (snd first) = getSTRMModules w /\
  contents (snd first) routesFilePath <> contents (snd second) routesFilePath.
Proof.
  vm_compute. repeat split; discriminate.
Qed.

Lemma C1_rebuild_witness :
  let w := project bookRegistry dayClock in
  let w' := snd (regenerateSTRMModuleRoutes w) in
  contents (snd (regenerateSTRMModuleRoutes w)) routesFilePath
  = contents (snd (regenerateSTRMModuleRoutes w')) routesFilePath /\
  contents (snd (regenerateSTRMModuleRoutes w)) routesFilePath
  = Some (Text (routesString "STORM Stack" "11/3/2026"
                  (controllerRoutesString bookRegistry))) /\
  getSTRMModules (snd (regenerateSTRMModuleRoutes w)) = Some bookRegistry.
Proof.
  apply (C1_rebuild_determined_by_modules_brand_and_date
           (project bookRegistry dayClock)
           (snd (regenerateSTRMModuleRoutes (project bookRegistry dayClock)))
           bookRegistry bookRegistry);
    vm_compute; reflexivity.
Defined.

(** C2, as stated, fails: when the registry ends in an entry without a
    descriptor, the last emitted module still gets the separator. *)
Lemma C2_last_emitted_keeps_separator :
  let w := project skippedLastRegistry dayClock in
  success (fst (regenerateSTRMModuleRoutes w)) = true /\
  emitted (modules skippedLastRegistry) = [("book", bookModule)] /\
  controllerRoutesString skippedLastRegistry = routeBindings "book" bookModule +:+ nl /\
  routesAsSpecified (emitted (modules skippedLastRegistry))
  = routeBindings "book" bookModule /\
  controllerRoutesString skippedLastRegistry
  <> routesAsSpecified (emitted (modules skippedLastRegistry)) /\
  contents (snd (regenerateSTRMModuleRoutes w)) routesFilePath
  <> Some (Text (routesString "STORM Stack" "11/3/2026"
                   (routesAsSpecified (emitted (modules skippedLastRegistry))))).
Proof.
  vm_compute. repeat split; discriminate.
Qed.

Lemma C2_route_table_witness :
  let w := project bookRegistry dayClock in
  NoDup (JS.keys (modules bookRegistry)) /\
  controllerRoutesString bookRegistry
  = "        Route('/book', BookController)," +:+ nl +:+
    "        Route('/book/{book}', BookController)," /\
  contents (snd (regenerateSTRMModuleRoutes w)) routesFilePath
  = Some (Text (routesString "STORM Stack" "11/3/2026"
                  ("        Route('/book', BookController)," +:+ nl +:+
                   "        Route('/book/{book}', BookController),"))).
Proof.
  assert (Hnd : NoDup (JS.keys (modules bookRegistry))).
  { vm_compute. apply NoDup_singleton. }
  split; [exact Hnd|].
  apply (C2_route_table (project bookRegistry dayClock) bookRegistry);
    [vm_compute; reflexivity | exact Hnd | vm_compute; reflexivity].
Defined.

Lemma C4_upsert_single_entry_witness :
  let w := bookProject in
  let again :=
    {| Args.name := "book"; Args.controllerOnly := Some true;
       Args.plural := Some "books" |} in
  let D := buildSTRMModule (ext := sampleExternals) again in
  exists r',
    getSTRMModules (snd (createSTRMModule (ext := sampleExternals) again w)) = Some r' /\
    modules r' = JS.set "book" (Some D) (modules bookRegistryOnDisk) /\
    JS.get "book" (modules r') = Some (Some D) /\
    length (filter (eq "book") (JS.keys (modules r'))) = 1%nat /\
    NoDup (JS.keys (modules r')) /\
    ("book" ∈ JS.keys (modules bookRegistryOnDisk) ->
     JS.keys (modules r') = JS.keys (modules bookRegistryOnDisk)) /\
    (forall K', K' <> "book" ->
                JS.get K' (modules r') = JS.get K' (modules bookRegistryOnDisk)) /\
    appId r' = appId bookRegistryOnDisk.
Proof.
  apply (C4_upsert_single_entry (ext := sampleExternals)
           {| Args.name := "book"; Args.controllerOnly := Some true;
              Args.plural := Some "books" |} bookProject bookRegistryOnDisk).
  - vm_compute. reflexivity.
  - vm_compute. apply NoDup_singleton.
  - vm_compute. reflexivity.
Defined.

Lemma C5_registry_unavailable_witness :
  registryUnavailable projectWithoutRegistry /\
  createSTRMModule (ext := sampleExternals) bookArgs projectWithoutRegistry
  = ({| success := false; message := Some "Failed to read STRMModules file" |},
     projectWithoutRegistry).
Proof.
  assert (H : registryUnavailable projectWithoutRegistry) by (left; reflexivity).
  split; [exact H|].
  exact (C5_registry_unavailable (ext := sampleExternals) bookArgs projectWithoutRegistry H).
Defined.

Lemma C6_route_rewrite_failure_witness :
  let w := projectWithoutRoutes in
  let out := createSTRMModule (ext := sampleExternals) bookArgs w in
  success (fst out) = false /\
  message (fst out)
  = Some "ENOENT: no such file or directory, open 'strm_routes/__init__.py'" /\
  registryOnDisk (snd out) = Some bookRegistryOnDisk /\
  is_Some (contents (snd out) ["strm_models"; "book.py"]) /\
  is_Some (contents (snd out) ["strm_controllers"; "book_controller.py"]) /\
  contents (snd out) autoImportPath = Some (Text EmptyString).
Proof.
  pose proof (fun w1 w2 w3 =>
    C6_route_rewrite_failure (ext := sampleExternals) bookArgs
      projectWithoutRoutes w1 w2 w3 emptyRegistry) as H.
  cbv zeta in H.
  specialize (H _ _ _ ltac:(vm_compute; reflexivity)
                ltac:(split; [vm_compute; reflexivity | reflexivity])
                ltac:(split; [vm_compute; reflexivity | reflexivity])
                ltac:(split; [vm_compute; reflexivity | reflexivity])
                ltac:(vm_compute; reflexivity)).
  destruct H as (H1 & H2 & _ & H4 & H5 & H6 & H7 & _).
  vm_compute in H1, H2, H4, H5, H6, H7 |- *.
  split_and!; [exact H1 | exact H2 | exact H4 | by eexists | by eexists | exact H7].
Defined.

(** C7, as stated, fails: two module creations in a row, both persisting
    the registry, with the clock set back by a second in between, leave a
    [lastUpdated] that went down. *)
Lemma C7_lastUpdated_can_go_back :
  let first :=
    createSTRMModule (ext := sampleExternals) bookArgs
      (project emptyRegistry adjustedClock) in
  let second := createSTRMModule (ext := sampleExternals) categoryArgs (snd first) in
  success (fst first) = true /\
  success (fst second) = true /\
  lastUpdatedOnDisk (snd first) = Some "2026-11-03T10:00:00.000Z" /\
  lastUpdatedOnDisk (snd second) = Some "2026-11-03T09:59:59.000Z" /\
  String.ltb "2026-11-03T10:00:00.000Z" "2026-11-03T09:59:59.000Z" = false.
Proof.
  vm_compute. repeat split.
Qed.

Lemma C7_lastUpdated_witness :
  let w1 := project emptyRegistry dayClock in
  let w2 := snd (writeSTRMModulesFile emptyRegistry w1) in
  lastUpdatedOnDisk (snd (writeSTRMModulesFile emptyRegistry w1))
  = Some "2026-11-03T10:15:30.000Z" /\
  lastUpdatedOnDisk (snd (writeSTRMModulesFile bookRegistry w2))
  = Some "2026-11-03T10:15:30.250Z" /\
  String.ltb "2026-11-03T10:15:30.000Z" "2026-11-03T10:15:30.250Z" = true.
Proof.
  destruct (C7_lastUpdated_is_the_clock_reading emptyRegistry bookRegistry
              (project emptyRegistry dayClock)
              (snd (writeSTRMModulesFile emptyRegistry (project emptyRegistry dayClock))))
    as (_ & _ & H1 & H2 & _).
  - vm_compute. reflexivity.
  - vm_compute. reflexivity.
  - vm_compute in H1, H2 |- *. split_and!; [exact H1 | exact H2 | reflexivity].
Defined.

Lemma C9_recorded_names_witness :
  let args :=
    {| Args.name := "Book"; Args.controllerOnly := None; Args.plural := None |} in
  let D := buildSTRMModule (ext := sampleExternals) args in
  let out := createSTRMModule (ext := sampleExternals) args (project emptyRegistry dayClock) in
  success (fst out) = true /\
  controllerName (controller D) = "book_controller" /\
  modelName (controller D) = "book.py" /\
  is_Some (contents (snd out) ["strm_models"; "Book.py"]) /\
  is_Some (contents (snd out) ["strm_controllers"; "Book_controller.py"]) /\
  contents (snd out) ["strm_models"; "book.py"] = None /\
  isLowercase "Book" = false.
Proof.
  assert (Hok : success (fst (createSTRMModule (ext := sampleExternals)
                                {| Args.name := "Book"; Args.controllerOnly := None;
                                   Args.plural := None |}
                                (project emptyRegistry dayClock))) = true)
    by (vm_compute; reflexivity).
  destruct (C9_recorded_names_and_written_paths (ext := sampleExternals)
              {| Args.name := "Book"; Args.controllerOnly := None;
                 Args.plural := None |}
              (project emptyRegistry dayClock) Hok)
    as (H1 & H2 & _ & [d1 H4] & [d2 H5] & _).
  vm_compute in H1, H2, H4, H5 |- *.
  split_and!; [reflexivity | exact H1 | exact H2 | by eexists | by eexists
              | reflexivity | reflexivity].
Defined.

Lemma C10_existing_pages_directory_witness :
  let w := bookProject in
  let out := createSTRMModule (ext := sampleExternals) bookArgs w in
  success (fst out) = false /\
  message (fst out)
  = Some "EEXIST: file already exists, mkdir 'strm_fe_react/src/pages/Book'" /\
  registryOnDisk (snd out)
  = Some (setLastUpdated bookRegistry "2026-11-03T10:15:30.750Z") /\
  contents (snd out) autoImportPath
  = Some (Text ("from .book_controller import BookController" +:+ nl +:+
                "from .book_controller import BookController" +:+ nl)).
Proof.
  pose proof (fun w1 w2 w3 w4 w5 =>
    C10_existing_pages_directory (ext := sampleExternals) bookArgs
      bookProject w1 w2 w3 w4 w5 bookRegistryOnDisk reactConfig) as H.
  cbv zeta in H.
  specialize (H _ _ _ _ _ ltac:(vm_compute; reflexivity)
                ltac:(split; [vm_compute; reflexivity | reflexivity])
                ltac:(split; [vm_compute; reflexivity | reflexivity])
                ltac:(split; [vm_compute; reflexivity | reflexivity])
                ltac:(split; [vm_compute; reflexivity | reflexivity])
                ltac:(split; [vm_compute; reflexivity | reflexivity])
                eq_refl
                ltac:(exists Dir; vm_compute; reflexivity)).
  destruct H as (H1 & H2 & _ & _ & _ & H6).
  pose proof (f_equal (fun o => success (fst o)) H1) as Hs.
  pose proof (f_equal (fun o => message (fst o)) H1) as Hm.
  vm_compute in Hs, Hm, H2, H6 |- *.
  split_and!; [exact Hs | exact Hm | exact H2 | exact H6].
Defined.

(** ** The scenarios of the specification, run on the sample project *)

Example split_keeps_empty_words :
  JS.split "_"%char "book__shelf_" = ["book"; ""; "shelf"; ""].
Proof. reflexivity. Qed.

Example correctedControllerName_book :
  correctedControllerName "book_shelf_controller" = "BookShelfController".
Proof. reflexivity. Qed.

(** Scenario A: module [book], with pages and without a plural. *)
Example scenario_A :
  let out :=
    createSTRMModule (ext := sampleExternals) bookArgs (project emptyRegistry dayClock) in
  success (fst out) = true /\
  registryOnDisk (snd out) = Some bookRegistryOnDisk /\
  JS.get "book" (modules bookRegistryOnDisk)
  = Some (Some {| controller :=
                    {| controllerName := "book_controller"; endpointBase := "book";
                       modelName := "book.py" |};
                  controllerOnly := false;
                  pages :=
                    [ {| path := "/book"; componentName := "Book";
                         componentPath := "Book/Index" |};
                      {| path := "/book/:id"; componentName := "BookDetail";
                         componentPath := "Book/Book" |} ] |}) /\
  contents (snd out) routesFilePath
  = Some (Text (routesString "STORM Stack" "11/3/2026"
                  ("        Route('/book', BookController)," +:+ nl +:+
                   "        Route('/book/{book}', BookController),"))) /\
  is_Some (contents (snd out) ["strm_fe_react"; "src"; "pages"; "Book"; "Index.tsx"]) /\
  is_Some (contents (snd out) ["strm_fe_react"; "src"; "pages"; "Book"; "BookDetail.tsx"]).
Proof. vm_compute. split_and!; try reflexivity; by eexists. Qed.

(** Scenario B: a controller-only module [category] with plural
    [categories]: no page is written, though the pages directory is made. *)
Example scenario_B :
  let out :=
    createSTRMModule (ext := sampleExternals) categoryArgs
      (project emptyRegistry dayClock) in
  success (fst out) = true /\
  (controller <$> mjoin (JS.get "category" (default [] (modules <$> registryOnDisk (snd out)))))
  = Some {| controllerName := "category_controller"; endpointBase := "categories";
            modelName := "category.py" |} /\
  (pages <$> mjoin (JS.get "category" (default [] (modules <$> registryOnDisk (snd out)))))
  = Some [] /\
  fs (snd out) !! ["strm_fe_react"; "src"; "pages"; "Categories"] = Some Dir /\
  fs (snd out) !! ["strm_fe_react"; "src"; "pages"; "Categories"; "Index.tsx"] = None /\
  contents (snd out) routesFilePath
  = Some (Text (routesString "STORM Stack" "11/3/2026"
                  ("        Route('/categories', CategoryController)," +:+ nl +:+
                   "        Route('/categories/{category}', CategoryController),"))).
Proof. vm_compute. split_and!; reflexivity. Qed.

(** Scenario C: module [tag] created twice, the second time with a plural:
    one registry entry, holding the second call's values, and two import
    lines. *)
Example scenario_C :
  let first :=
    createSTRMModule (ext := sampleExternals)
      {| Args.name := "tag"; Args.controllerOnly := None; Args.plural := None |}
      (project emptyRegistry dayClock) in
  let second :=
    createSTRMModule (ext := sampleExternals)
      {| Args.name := "tag"; Args.controllerOnly := None; Args.plural := Some "tags" |}
      (snd first) in
  success (fst first) = true /\
  success (fst second) = true /\
  (JS.keys <$> (modules <$> registryOnDisk (snd second))) = Some ["tag"] /\
  (endpointBase <$>
     (controller <$> mjoin (JS.get "tag" (default [] (modules <$> registryOnDisk (snd second))))))
  = Some "tags" /\
  contents (snd second) autoImportPath
  = Some (Text ("from .tag_controller import TagController" +:+ nl +:+
                "from .tag_controller import TagController" +:+ nl)).
Proof. vm_compute. split_and!; reflexivity. Qed.

(** ** Further properties: names and the route block *)

Lemma append_cancel_r (a b t : string) : a +:+ t = b +:+ t -> a = b.
Proof.
  revert b. induction a as [|x a IH]; intros [|y b] H.
  - reflexivity.
  - apply (f_equal String.length) in H. rewrite !length_append in H. simpl in H. lia.
  - apply (f_equal String.length) in H. rewrite !length_append in H. simpl in H. lia.
  - rewrite !append_cons in H. injection H as -> H. f_equal. by apply IH.
Qed.

Lemma split_nonempty (sep : ascii) (s : string) : JS.split sep s <> [].
Proof.
  induction s as [|c s IH]; simpl; [done|].
  destruct (Ascii.eqb c sep); [done|]. by destruct (JS.split sep s).
Qed.

Lemma split_app_sep (sep : ascii) (a b : string) :
  JS.split sep (a +:+ String sep b) = JS.split sep a ++ JS.split sep b.
Proof.
  induction a as [|c a IH].
  - change (EmptyString +:+ String sep b) with (String sep b).
    simpl. by rewrite Ascii.eqb_refl.
  - rewrite append_cons. simpl. rewrite IH.
    destruct (Ascii.eqb c sep); [reflexivity|].
    pose proof (split_nonempty sep a) as Hne.
    by destruct (JS.split sep a) as [|w ws].
Qed.

Lemma join_app (l k : list string) : JS.join (l ++ k) = JS.join l +:+ JS.join k.
Proof.
  induction l as [|w l IH]; simpl; [reflexivity|].
  by rewrite IH, append_assoc.
Qed.

Lemma correctedControllerName_underscore (a b : string) :
  correctedControllerName (a +:+ "_" +:+ b)
  = correctedControllerName a +:+ correctedControllerName b.
Proof.
  unfold correctedControllerName.
  change ("_" +:+ b) with (String "_"%char b).
  by rewrite split_app_sep, map_app, join_app.
Qed.

Lemma countChar_append (c : ascii) (a b : string) :
  countChar c (a +:+ b) = (countChar c a + countChar c b)%nat.
Proof.
  induction a as [|x a IH]; [reflexivity|].
  rewrite append_cons. simpl. rewrite IH. lia.
Qed.

Lemma toUpperCaseChar_underscore (c : ascii) :
  Ascii.eqb (JS.toUpperCaseChar c) "_"%char = Ascii.eqb c "_"%char.
Proof. by destruct c as [[] [] [] [] [] [] [] []]. Qed.

Lemma capitalizeWord_facts (word : string) :
  countChar "_"%char (capitalizeWord word) = countChar "_"%char word /\
  String.length (capitalizeWord word) = String.length word.
Proof.
  destruct word as [|c word]; [done|].
  unfold capitalizeWord. simpl. rewrite toUpperCaseChar_underscore. done.
Qed.

(** The words of a split hold no separator, and with the separators they
    make up the string. *)
Lemma split_facts (sep : ascii) (s : string) :
  Forall (fun word => countChar sep word = 0%nat) (JS.split sep s) /\
  (String.length (JS.join (JS.split sep s)) + countChar sep s)%nat = String.length s.
Proof.
  induction s as [|c s [IH1 IH2]]; simpl; [by repeat constructor|].
  destruct (Ascii.eqb c sep) eqn:E.
  - split; [by constructor|]. simpl.
    change (EmptyString +:+ JS.join (JS.split sep s)) with (JS.join (JS.split sep s)).
    lia.
  - pose proof (split_nonempty sep s) as Hne.
    destruct (JS.split sep s) as [|w ws]; [done|].
    apply Forall_cons in IH1 as [Hw Hws]. split.
    + constructor; [|done]. simpl. by rewrite E, Hw.
    + cbn [JS.join] in *. rewrite append_cons. simpl.
      rewrite length_append in *. lia.
Qed.

Lemma join_capitalized (words : list string) :
  Forall (fun word => countChar "_"%char word = 0%nat) words ->
  countChar "_"%char (JS.join (map capitalizeWord words)) = 0%nat /\
  String.length (JS.join (map capitalizeWord words)) = String.length (JS.join words).
Proof.
  induction 1 as [|w ws Hw _ [IH1 IH2]]; simpl; [done|].
  destruct (capitalizeWord_facts w) as [Hc Hl].
  rewrite countChar_append, !length_append, Hc, Hw, IH1, Hl, IH2. done.
Qed.





Lemma joinWith_lookup (packages pre : JS.object string) :
  NoDup (JS.keys (pre ++ packages)) ->
  map (fun pkg =>
         pkg +:+ "@" +:+
         match JS.get pkg (pre ++ packages) with
         | Some version => version
         | None => "undefined"
         end) (JS.keys packages)
  = map (fun e => fst e +:+ "@" +:+ snd e) packages.
Proof.
  revert pre. induction packages as [|[k v] packages IH]; intros pre Hnd; [reflexivity|].
  simpl. f_equal.
  - rewrite get_app_fresh; [done|].
    unfold JS.keys in Hnd. rewrite map_app in Hnd.
    apply NoDup_app in Hnd as (_ & Hdis & _).
    intros Hin. apply (Hdis k Hin). simpl. apply elem_of_cons. by left.
  - specialize (IH (pre ++ [(k, v)])). rewrite <- app_assoc in IH. by apply IH.
Qed.

Section Names.
Context {ext : Externals}.

(** X1: the class a module's routes are bound to is read off the recorded
    controller name word by word: an underscore splits the name, each part
    is corrected on its own, so the name lower(N)_controller gives the
    corrected lower(N) followed by Controller. *)
Theorem X1_corrected_name_by_words (moduleArgs : STRMModuleArgs) (a b : string) :
  correctedControllerName (a +:+ "_" +:+ b)
  = correctedControllerName a +:+ correctedControllerName b /\
  correctedControllerName (controllerName (controller (buildSTRMModule moduleArgs)))
  = correctedControllerName (JS.toLowerCase (Args.name moduleArgs)) +:+ "Controller".
Proof.
  split; [apply correctedControllerName_underscore|].
  unfold buildSTRMModule. simpl.
  change "_controller" with ("_" +:+ "controller").
  by rewrite correctedControllerName_underscore.
Qed.

(** X3: two module names get the same recorded controller name, and the
    same recorded model name, exactly when they agree up to letter case. *)
Theorem X3_recorded_names_collide_up_to_case (a b : STRMModuleArgs) :
  (controllerName (controller (buildSTRMModule a))
   = controllerName (controller (buildSTRMModule b))
   <-> JS.toLowerCase (Args.name a) = JS.toLowerCase (Args.name b)) /\
  (modelName (controller (buildSTRMModule a))
   = modelName (controller (buildSTRMModule b))
   <-> JS.toLowerCase (Args.name a) = JS.toLowerCase (Args.name b)).
Proof.
  unfold buildSTRMModule. simpl.
  split; (split; [apply append_cancel_r | by intros ->]).
Qed.

End Names.

(** X2: the corrected controller name has no underscore, and is shorter than
    the name by the number of its underscores. *)
Theorem X2_corrected_name_drops_underscores (name : string) :
  countChar "_"%char (correctedControllerName name) = 0%nat /\
  (String.length (correctedControllerName name) + countChar "_"%char name)%nat
  = String.length name.
Proof.
  unfold correctedControllerName.
  destruct (split_facts "_"%char name) as [Hw Hl].
  destruct (join_capitalized _ Hw) as [Hc Hl']. split; [done|]. by rewrite Hl'.
Qed.


(** X5: the install string of an add-on names each of its packages once, as
    name@version, in the order of the file, with single spaces between. *)
Theorem X5_install_string (packages : JS.object string) :
  NoDup (JS.keys packages) ->
  installString packages
  = joinWith " " (map (fun e => fst e +:+ "@" +:+ snd e) packages).
Proof.
  intros Hnd. unfold installString. f_equal.
  exact (joinWith_lookup packages [] Hnd).
Qed.

(** ** Further properties: when the steps succeed and what they keep *)

Lemma sameKind_refl (n : node) : sameKind n n.
Proof. by destruct n. Qed.

Lemma sameKind_trans (a b c : node) : sameKind a b -> sameKind b c -> sameKind a c.
Proof. destruct a, b, c; simpl; try done. congruence. Qed.

Lemma keepsEntries_refl (w : World) : keepsEntries w w.
Proof. intros p n H. exists n. split; [done | apply sameKind_refl]. Qed.

Lemma keepsEntries_trans (w1 w2 w3 : World) :
  keepsEntries w1 w2 -> keepsEntries w2 w3 -> keepsEntries w1 w3.
Proof.
  intros H12 H23 p n Hp. destruct (H12 p n Hp) as (n2 & Hp2 & K2).
  destruct (H23 p n2 Hp2) as (n3 & Hp3 & K3). exists n3.
  split; [done | by eapply sameKind_trans].
Qed.

Lemma keepsEntries_fs (w w' : World) : fs w' = fs w -> keepsEntries w w'.
Proof. intros E p n H. exists n. rewrite E. split; [done | apply sameKind_refl]. Qed.

(** An insertion that respects the kind of what it replaces keeps the entries. *)
Lemma keepsEntries_insert (w w' : World) (p : fspath) (n' : node) :
  fs w' = <[p := n']> (fs w) ->
  (forall n, fs w !! p = Some n -> sameKind n n') ->
  keepsEntries w w'.
Proof.
  intros E Hk q n Hq. rewrite E. destruct (decide (p = q)) as [<-|Hne].
  - exists n'. rewrite lookup_insert_eq. split; [done | by apply Hk].
  - exists n. rewrite lookup_insert_ne by done. split; [done | apply sameKind_refl].
Qed.

Lemma writeFile_keeps (p : fspath) (d : fileData) (w w' : World) :
  writeFile p d w = inr w' -> keepsEntries w w'.
Proof.
  unfold writeFile. intros H.
  destruct (fs w !! p) as [[m d0|]|] eqn:E.
  - destruct (writable m); [|done]. injection H as <-.
    eapply keepsEntries_insert; [reflexivity|]. intros n Hn. by simplify_eq.
  - done.
  - destruct (parentDir _ _ _); [done|]. injection H as <-.
    eapply keepsEntries_insert; [reflexivity|]. intros n Hn. by simplify_eq.
Qed.

Lemma appendFile_keeps (p : fspath) (s : string) (w w' : World) :
  appendFile p s w = inr w' -> keepsEntries w w'.
Proof.
  unfold appendFile. intros H.
  destruct (fs w !! p) as [[m d0|]|] eqn:E.
  - destruct (writable m); [|done]. injection H as <-.
    eapply keepsEntries_insert; [reflexivity|]. intros n Hn. by simplify_eq.
  - done.
  - destruct (parentDir _ _ _); [done|]. injection H as <-.
    eapply keepsEntries_insert; [reflexivity|]. intros n Hn. by simplify_eq.
Qed.

Lemma mkdir_keeps (p : fspath) (w w' : World) :
  mkdir p w = inr w' -> keepsEntries w w'.
Proof.
  intros H. apply mkdir_inv in H as [Hnone ->].
  eapply keepsEntries_insert; [reflexivity|]. intros n Hn. simpl in *. congruence.
Qed.


Lemma appendFile_writableAt (p : fspath) (s : string) (w : World) :
  writableAt w p = true <-> exists w', appendFile p s w = inr w'.
Proof.
  unfold writableAt, appendFile.
  destruct (fs w !! p) as [[m d0|]|].
  - destruct (writable m); (split; [intros ?; by eauto | by intros [w' ?]]).
  - split; [done | by intros [w' ?]].
  - destruct (parentDir _ _ _) as [e|u]; (split; [intros ?; by eauto | by intros [w' ?]]).
Qed.


Lemma writableAt_after_write (w w' : World) (p : fspath) (m : mode) (d : fileData) :
  writableAt w p = true ->
  fs w' = <[p := File m d]> (fs w) ->
  (forall m0 d0, fs w !! p = Some (File m0 d0) -> m = m0) ->
  (fs w !! p = None -> m = defaultMode) ->
  writableAt w' p = true.
Proof.
  unfold writableAt. intros Hw E Hm Hd. rewrite E, lookup_insert_eq.
  destruct (fs w !! p) as [[m0 d0|]|] eqn:Hp.
  - by rewrite (Hm m0 d0 eq_refl).
  - done.
  - by rewrite (Hd eq_refl).
Qed.

Lemma writeFile_after_date (p : fspath) (d : fileData) (w : World) :
  match writeFile p d (snd (newDate w)) with
  | inr _ => writableAt w p = true
  | inl _ => writableAt w p = false
  end.
Proof.
  unfold writeFile, writableAt, parentDir, newDate. simpl.
  destruct (fs w !! p) as [[m d0|]|]; [by destruct (writable m)|done|].
  destruct (removelast p); [done|]. by destruct (fs w !! _) as [[]|].
Qed.

Lemma appendFile_outcome (p : fspath) (s : string) (w : World) :
  match appendFile p s w with
  | inr _ => writableAt w p = true
  | inl _ => writableAt w p = false
  end.
Proof.
  unfold appendFile, writableAt, parentDir.
  destruct (fs w !! p) as [[m d0|]|]; [by destruct (writable m)|done|].
  destruct (removelast p); [done|]. by destruct (fs w !! _) as [[]|].
Qed.

Section StepOutcomes.
Context {ext : Externals}.

(** A step that reads the date and then writes [p] succeeds exactly when
    [p] can be written. *)
Ltac outcome_of p d w :=
  let H := fresh "H" in
  pose proof (writeFile_after_date p d w) as H;
  unfold newDate in H |- *; simpl in H |- *;
  destruct (writeFile _ _ _); simpl; rewrite H; by split.

Lemma steps_succeed_iff (n : string) (r : STRMModulesFile) (w : World) :
  (success (fst (writeSTRMModulesFile r w)) = true
   <-> writableAt w modulesFilePath = true) /\
  (success (fst (writeSTRMModelFile n w)) = true
   <-> writableAt w (modelFilePath n) = true) /\
  (success (fst (writeSTRMControllerFile n w)) = true
   <-> writableAt w (controllerFilePath n) = true) /\
  (success (fst (regenerateSTRMModuleRoutes w)) = true
   <-> is_Some (getSTRMModules w) /\ writableAt w routesFilePath = true) /\
  (success (fst (updateSTRMModuleRouteAutoImports n w)) = true
   <-> writableAt w autoImportPath = true).
Proof.
  split_and!.
  - unfold writeSTRMModulesFile.
    outcome_of modulesFilePath
      (JSON_stringify (setLastUpdated r (toISOString (clock w (reads w))))) w.
  - unfold writeSTRMModelFile.
    outcome_of (modelFilePath n)
      (Text (modelFileData (STORM_BRANDED w)
               (toLocaleDateString (clock w (reads w))) n)) w.
  - unfold writeSTRMControllerFile.
    outcome_of (controllerFilePath n)
      (Text (controllerData (STORM_BRANDED w)
               (toLocaleDateString (clock w (reads w))) n)) w.
  - unfold regenerateSTRMModuleRoutes.
    destruct (getSTRMModules w) as [r0|].
    + pose proof (writeFile_after_date routesFilePath
        (Text (routesString (STORM_BRANDED w) (toLocaleDateString (clock w (reads w)))
                 (controllerRoutesString r0))) w) as H.
      unfold newDate in H |- *. simpl in H |- *.
      destruct (writeFile _ _ _); simpl; rewrite H;
        (split; [intros ?; try done; by eauto | by intros [_ ?]]).
    + simpl. split; [done|]. by intros [[? ?] _].
  - unfold updateSTRMModuleRouteAutoImports.
    pose proof (appendFile_outcome autoImportPath (autoImportData n) w) as H.
    destruct (appendFile _ _ _); simpl; rewrite H; by split.
Qed.

(** X6: each writing step succeeds exactly when its target can be written:
    the target is a writable file, or is free in an existing directory; the
    route rebuild needs the registry to load as well. *)
Theorem X6_steps_succeed_iff_writable (n : string) (r : STRMModulesFile) (w : World) :
  (success (fst (writeSTRMModulesFile r w)) = true
   <-> writableAt w modulesFilePath = true) /\
  (success (fst (writeSTRMModelFile n w)) = true
   <-> writableAt w (modelFilePath n) = true) /\
  (success (fst (writeSTRMControllerFile n w)) = true
   <-> writableAt w (controllerFilePath n) = true) /\
  (success (fst (regenerateSTRMModuleRoutes w)) = true
   <-> is_Some (getSTRMModules w) /\ writableAt w routesFilePath = true) /\
  (success (fst (updateSTRMModuleRouteAutoImports n w)) = true
   <-> writableAt w autoImportPath = true).
Proof. exact (steps_succeed_iff n r w). Qed.

End StepOutcomes.

Lemma keeps_after_date (p : fspath) (d : fileData) (w : World) :
  match writeFile p d (snd (newDate w)) with
  | inr w2 => keepsEntries w w2
  | inl _ => keepsEntries w (snd (newDate w))
  end.
Proof.
  destruct (writeFile _ _ _) as [e|w2] eqn:E; [by apply keepsEntries_fs|].
  eapply keepsEntries_trans; [|exact (writeFile_keeps _ _ _ _ E)].
  by apply keepsEntries_fs.
Qed.

Section Keeps.
Context {ext : Externals}.

Ltac keeps_of p d w :=
  let H := fresh "H" in
  pose proof (keeps_after_date p d w) as H;
  unfold newDate in H |- *; simpl in H |- *;
  by destruct (writeFile _ _ _).

Lemma writeSTRMModulesFile_keeps (r : STRMModulesFile) (w : World) :
  keepsEntries w (snd (writeSTRMModulesFile r w)).
Proof.
  unfold writeSTRMModulesFile.
  keeps_of modulesFilePath
    (JSON_stringify (setLastUpdated r (toISOString (clock w (reads w))))) w.
Qed.

Lemma writeSTRMModelFile_keeps (n : string) (w : World) :
  keepsEntries w (snd (writeSTRMModelFile n w)).
Proof.
  unfold writeSTRMModelFile.
  keeps_of (modelFilePath n)
    (Text (modelFileData (STORM_BRANDED w) (toLocaleDateString (clock w (reads w))) n)) w.
Qed.

Lemma writeSTRMControllerFile_keeps (n : string) (w : World) :
  keepsEntries w (snd (writeSTRMControllerFile n w)).
Proof.
  unfold writeSTRMControllerFile.
  keeps_of (controllerFilePath n)
    (Text (controllerData (STORM_BRANDED w) (toLocaleDateString (clock w (reads w))) n)) w.
Qed.

Lemma regenerateSTRMModuleRoutes_keeps (w : World) :
  keepsEntries w (snd (regenerateSTRMModuleRoutes w)).
Proof.
  unfold regenerateSTRMModuleRoutes.
  destruct (getSTRMModules w) as [r|]; [|apply keepsEntries_refl].
  keeps_of routesFilePath
    (Text (routesString (STORM_BRANDED w) (toLocaleDateString (clock w (reads w)))
             (controllerRoutesString r))) w.
Qed.

Lemma updateSTRMModuleRouteAutoImports_keeps (n : string) (w : World) :
  keepsEntries w (snd (updateSTRMModuleRouteAutoImports n w)).
Proof.
  unfold updateSTRMModuleRouteAutoImports.
  destruct (appendFile _ _ _) as [e|w1] eqn:E; simpl; [apply keepsEntries_refl|].
  by eapply appendFile_keeps.
Qed.

Lemma writePages_keeps (cfg : STRMConfigFile) (base : fspath) (module : STRMModule)
  (ps : list STRMFERoute) (w : World) :
  keepsEntries w (snd (writePages cfg base module ps w)).
Proof.
  revert w. induction ps as [|page rest IH]; intros w; simpl; [apply keepsEntries_refl|].
  destruct (writeFile _ _ _) as [e|w'] eqn:E; simpl; [apply keepsEntries_refl|].
  eapply keepsEntries_trans; [exact (writeFile_keeps _ _ _ _ E) | apply IH].
Qed.

Lemma buildSTRMFrontendComponents_keeps (k pl : string) (w : World) :
  keepsEntries w (snd (buildSTRMFrontendComponents k pl w)).
Proof.
  unfold buildSTRMFrontendComponents.
  destruct (getProjectConfig w) as [cfg|]; [|apply keepsEntries_refl].
  destruct (getSTRMModules w) as [r|]; [|apply keepsEntries_refl].
  destruct (mkdir _ _) as [e|w1] eqn:E; [apply keepsEntries_refl|].
  apply mkdir_keeps in E.
  destruct (JS.get k (modules r)) as [[module|]|]; [|done..].
  pose proof (writePages_keeps cfg (feBasePath cfg pl) module (pages module) w1) as H.
  destruct (writePages _ _ _ _ _) as [[e|] w2]; simpl in *;
    by eapply keepsEntries_trans.
Qed.

(** X7: whatever its outcome, [createSTRMModule] removes nothing: every file
    and directory there before the run is there after it, a directory still
    a directory and a file still a file with the same permissions. *)
Theorem X7_createSTRMModule_removes_nothing (moduleArgs : STRMModuleArgs) (w : World) :
  keepsEntries w (snd (createSTRMModule moduleArgs w)).
Proof.
  destruct (getSTRMModules w) as [r|] eqn:Hr.
  2: { unfold createSTRMModule. rewrite Hr. apply keepsEntries_refl. }
  rewrite (createSTRMModule_steps moduleArgs w r Hr). cbv zeta.
  set (n := Args.name moduleArgs).
  set (s1 := writeSTRMModulesFile _ w).
  set (s2 := writeSTRMModelFile n (snd s1)).
  set (s3 := writeSTRMControllerFile n (snd s2)).
  set (s4 := regenerateSTRMModuleRoutes (snd s3)).
  set (s5 := updateSTRMModuleRouteAutoImports n (snd s4)).
  set (s6 := buildSTRMFrontendComponents n (pluralizedName moduleArgs) (snd s5)).
  assert (K1 : keepsEntries w (snd s1)) by apply writeSTRMModulesFile_keeps.
  assert (K2 : keepsEntries w (snd s2))
    by (eapply keepsEntries_trans; [exact K1 | apply writeSTRMModelFile_keeps]).
  assert (K3 : keepsEntries w (snd s3))
    by (eapply keepsEntries_trans; [exact K2 | apply writeSTRMControllerFile_keeps]).
  assert (K4 : keepsEntries w (snd s4))
    by (eapply keepsEntries_trans; [exact K3 | apply regenerateSTRMModuleRoutes_keeps]).
  assert (K5 : keepsEntries w (snd s5))
    by (eapply keepsEntries_trans;
        [exact K4 | apply updateSTRMModuleRouteAutoImports_keeps]).
  assert (K6 : keepsEntries w (snd s6))
    by (eapply keepsEntries_trans;
        [exact K5 | apply buildSTRMFrontendComponents_keeps]).
  repeat (destruct (negb _); [done|]). done.
Qed.

End Keeps.

Section Frames.
Context {ext : Externals}.

Lemma writePages_untouched (cfg : STRMConfigFile) (base : fspath) (module : STRMModule)
  (ps : list STRMFERoute) (w : World) (p : fspath) :
  (forall f, p <> base ++ [f]) ->
  fs (snd (writePages cfg base module ps w)) !! p = fs w !! p.
Proof.
  intros Hp. revert w. induction ps as [|page rest IH]; intros w; simpl; [done|].
  destruct (writeFile _ _ _) as [e|w'] eqn:E; simpl; [done|].
  apply writeFile_inv in E as [m Hw']. rewrite IH. subst w'. simpl.
  apply lookup_insert_ne. intros <-. by eapply Hp.
Qed.

Lemma buildSTRMFrontendComponents_untouched (k pl : string) (w : World) (p : fspath) :
  (forall cfg f, p <> feBasePath cfg pl /\ p <> feBasePath cfg pl ++ [f]) ->
  fs (snd (buildSTRMFrontendComponents k pl w)) !! p = fs w !! p.
Proof.
  intros Hp. unfold buildSTRMFrontendComponents.
  destruct (getProjectConfig w) as [cfg|]; [|done].
  destruct (getSTRMModules w) as [r|]; [|done].
  destruct (mkdir _ _) as [e|w1] eqn:E; [done|].
  apply mkdir_inv in E as [_ ->].
  assert (Hbase : fs (withFs w (<[feBasePath cfg pl := Dir]> (fs w))) !! p = fs w !! p).
  { simpl. apply lookup_insert_ne. intros <-. by destruct (Hp cfg EmptyString). }
  destruct (JS.get k (modules r)) as [[module|]|]; [|done..].
  pose proof (writePages_untouched cfg (feBasePath cfg pl) module (pages module)
                (withFs w (<[feBasePath cfg pl := Dir]> (fs w))) p) as Hf.
  destruct (writePages _ _ _ _ _) as [[e|] w2]; simpl in *;
    (rewrite Hf; [done|]; intros f; by destruct (Hp cfg f)).
Qed.

(** X8: whatever its outcome, [createSTRMModule] changes no path other than
    the registry file, the module's model and controller files, the route
    file, the auto-import file, and the module's pages directory with the
    files directly in it. *)
Theorem X8_createSTRMModule_touches_only_its_targets
  (moduleArgs : STRMModuleArgs) (w : World) (p : fspath) :
  let n := Args.name moduleArgs in
  let pl := pluralizedName moduleArgs in
  p ∉ [modulesFilePath; modelFilePath n; controllerFilePath n; routesFilePath;
       autoImportPath] ->
  (forall cfg f, p <> feBasePath cfg pl /\ p <> feBasePath cfg pl ++ [f]) ->
  fs (snd (createSTRMModule moduleArgs w)) !! p = fs w !! p.
Proof.
  intros n pl Hp Hfe.
  repeat (apply not_elem_of_cons in Hp as [? Hp]).
  destruct (getSTRMModules w) as [r|] eqn:Hr.
  2: { unfold createSTRMModule. by rewrite Hr. }
  rewrite (createSTRMModule_steps moduleArgs w r Hr). cbv zeta. fold n pl.
  set (s1 := writeSTRMModulesFile _ w).
  set (s2 := writeSTRMModelFile n (snd s1)).
  set (s3 := writeSTRMControllerFile n (snd s2)).
  set (s4 := regenerateSTRMModuleRoutes (snd s3)).
  set (s5 := updateSTRMModuleRouteAutoImports n (snd s4)).
  set (s6 := buildSTRMFrontendComponents n pl (snd s5)).
  assert (E1 : fs (snd s1) !! p = fs w !! p)
    by by apply writeSTRMModulesFile_frame.
  assert (E2 : fs (snd s2) !! p = fs w !! p)
    by (rewrite <- E1; by apply writeSTRMModelFile_frame).
  assert (E3 : fs (snd s3) !! p = fs w !! p)
    by (rewrite <- E2; by apply writeSTRMControllerFile_frame).
  assert (E4 : fs (snd s4) !! p = fs w !! p)
    by (rewrite <- E3; by apply regenerateSTRMModuleRoutes_frame).
  assert (E5 : fs (snd s5) !! p = fs w !! p)
    by (rewrite <- E4; by apply updateSTRMModuleRouteAutoImports_frame).
  assert (E6 : fs (snd s6) !! p = fs w !! p)
    by (rewrite <- E5; by apply buildSTRMFrontendComponents_untouched).
  repeat (destruct (negb _); [done|]). done.
Qed.

End Frames.


Section Success.
Context {ext : Externals}.




End Success.

Lemma prefix_refl (s : string) : String.prefix s s = true.
Proof.
  induction s as [|c s IH]; simpl; [done|]. by destruct (ascii_dec c c).
Qed.

Lemma includes_suffix (needle a : string) : JS.includes needle (a +:+ needle) = true.
Proof.
  induction a as [|c a IH].
  - change (EmptyString +:+ needle) with needle.
    destruct needle; cbn [JS.includes]; by rewrite prefix_refl.
  - rewrite append_cons. cbn [JS.includes]. rewrite IH. apply orb_true_r.
Qed.

Section Frontend.
Context {ext : Externals}.

Lemma buildSTRMFrontendComponents_success_inv (k pl : string) (w : World) :
  success (fst (buildSTRMFrontendComponents k pl w)) = true ->
  exists cfg r D,
    getProjectConfig w = Some cfg /\ getSTRMModules w = Some r /\
    JS.get k (modules r) = Some (Some D) /\
    fs w !! feBasePath cfg pl = None /\
    fs (snd (buildSTRMFrontendComponents k pl w)) !! feBasePath cfg pl = Some Dir.
Proof.
  unfold buildSTRMFrontendComponents.
  destruct (getProjectConfig w) as [cfg|]; [|done].
  destruct (getSTRMModules w) as [r|]; [|done].
  destruct (mkdir _ _) as [e|w1] eqn:E; [done|].
  apply mkdir_inv in E as [Hnone ->].
  destruct (JS.get k (modules r)) as [[D|]|] eqn:HD; [|done..].
  pose proof (writePages_frame cfg (feBasePath cfg pl) D (pages D)
                (withFs w (<[feBasePath cfg pl := Dir]> (fs w))) (feBasePath cfg pl))
    as [Hf _]; [lia|].
  destruct (writePages _ _ _ _ _) as [[e|] w2]; [done|]. simpl in *. intros _.
  exists cfg, r, D. split_and!; try done. by rewrite Hf, lookup_insert_eq.
Qed.

(** X10: after a successful [createSTRMModule] the registry file loads and
    holds the updated registry, the route file is the table rebuilt from
    that registry, the auto-import file has grown by exactly the module's
    import line, and the module's pages directory, absent before, exists. *)
Theorem X10_success_leaves_every_artifact (moduleArgs : STRMModuleArgs) (w : World) :
  let n := Args.name moduleArgs in
  let out := createSTRMModule moduleArgs w in
  success (fst out) = true ->
  exists r cfg date,
    let stamped :=
      setLastUpdated (setModule r n (buildSTRMModule moduleArgs))
        (toISOString (clock w (reads w))) in
    getSTRMModules w = Some r /\
    getSTRMModules (snd out) = Some stamped /\
    contents (snd out) routesFilePath
    = Some (Text (routesString (STORM_BRANDED w) date (controllerRoutesString stamped))) /\
    contents (snd out) autoImportPath
    = Some (match contents w autoImportPath with
            | Some d => appendData d (autoImportData n)
            | None => Text (autoImportData n)
            end) /\
    fs w !! feBasePath cfg (pluralizedName moduleArgs) = None /\
    fs (snd out) !! feBasePath cfg (pluralizedName moduleArgs) = Some Dir.
Proof.
  intros n out Hok.
  destruct (createSTRMModule_success_inv moduleArgs w Hok)
    as (r & w1 & w2 & w3 & w4 & w5 & Hr & S1 & S2 & S3 & S4 & S5 & S6).
  fold n out in S1, S2, S3, S5, S6.
  destruct (after_controller moduleArgs w w1 w2 w3 r S1 S2 S3)
    as (Hreg & _ & _ & Hframe & _ & (_ & Hbrand & _)).
  fold n in Hreg, Hframe.
  destruct (path_facts n) as (P1 & P2 & P3 & P4 & P5 & P6 & P7 & P8 & P9 & P10).
  pose proof (regenerateSTRMModuleRoutes_spec w3) as [_ F4]. cbv zeta in F4.
  pose proof (updateSTRMModuleRouteAutoImports_spec n w4) as (_ & _ & F5).
  cbv zeta in F5.
  destruct S4 as [H4 E4], S5 as [H5 E5], S6 as [H6 E6].
  rewrite H4, E4 in F4. rewrite H5, E5 in F5.
  destruct F4 as (r0 & m4 & Hr0 & _ & F4). destruct F5 as [m5 F5].
  apply getSTRMModules_on_disk in Hr0 as Hr0'. rewrite Hreg in Hr0'.
  injection Hr0' as <-.
  assert (Hauto : contents w4 autoImportPath = contents w autoImportPath).
  { apply contents_frame. rewrite F4, lookup_insert_ne by done. by apply Hframe. }
  rewrite Hauto in F5.
  destruct (buildSTRMFrontendComponents_success_inv _ _ _ H6)
    as (cfg & r5 & D5 & _ & _ & _ & Hnone & Hdir).
  rewrite E6 in Hdir.
  assert (Hlast : forall p, (length p < 4)%nat -> fs (snd out) !! p = fs w5 !! p).
  { intros p Hp. rewrite <- E6. by apply buildSTRMFrontendComponents_frame. }
  exists r, cfg, (toLocaleDateString (clock w3 (reads w3))). cbv zeta.
  split_and!; try done.
  - rewrite <- Hr0. apply getSTRMModules_frame.
    rewrite Hlast by (simpl; lia). rewrite F5, F4. by rewrite !lookup_insert_ne.
  - unfold contents. rewrite Hlast by (simpl; lia). rewrite F5, F4.
    rewrite lookup_insert_ne, lookup_insert_eq by done. by rewrite Hbrand.
  - unfold contents at 1. rewrite Hlast by (simpl; lia). rewrite F5.
    by rewrite lookup_insert_eq.
  - rewrite <- Hnone. symmetry. rewrite F5, F4.
    rewrite !lookup_insert_ne by discriminate. apply Hframe; discriminate.
Qed.

(** X11: for a module with pages, a successful frontend step writes the
    index page to Index.tsx and the detail page to its own file, unless the
    detail page's component path itself contains the word Index: then the
    detail page is taken for an index page too, Index.tsx ends up holding an
    index page for the detail component, and no detail file is written. *)
Theorem X11_pages_and_the_word_index (moduleArgs : STRMModuleArgs) (w : World)
  (cfg : STRMConfigFile) (r : STRMModulesFile) :
  let n := Args.name moduleArgs in
  let pl := pluralizedName moduleArgs in
  let D := buildSTRMModule moduleArgs in
  let base := feBasePath cfg pl in
  let index := base ++ ["Index.tsx"] in
  let detail := base ++ [(titleCase n +:+ "Detail") +:+ ".tsx"] in
  let out := buildSTRMFrontendComponents n pl w in
  getProjectConfig w = Some cfg ->
  getSTRMModules w = Some r ->
  JS.get n (modules r) = Some (Some D) ->
  flag (Args.controllerOnly moduleArgs) = false ->
  success (fst out) = true ->
  if JS.includes "Index" (titleCase pl +:+ "/" +:+ titleCase n)
  then
    contents (snd out) index
    = Some (Text (generateIndexPage (frontend cfg) (titleCase n +:+ "Detail"))) /\
    fs (snd out) !! detail = fs w !! detail
  else
    contents (snd out) index
    = Some (Text (generateIndexPage (frontend cfg) (titleCase n))) /\
    contents (snd out) detail
    = Some (Text (generateDetailsPage (frontend cfg) (titleCase n +:+ "Detail")
                    (titleCase pl +:+ "/" +:+ titleCase n)
                    (controllerName (controller D)))).
Proof.
  intros n pl D base index detail out Hcfg Hr HD Hflag.
  assert (Hne : index <> detail).
  { subst index detail. intros Heq. apply app_inv_head in Heq. injection Heq as Heq.
    apply (f_equal String.length) in Heq. rewrite !length_append in Heq.
    simpl in Heq. lia. }
  assert (Hib : index <> base /\ detail <> base).
  { subst index detail. split; intros Heq; apply (f_equal length) in Heq;
      rewrite length_app in Heq; simpl in Heq; lia. }
  destruct Hib as [Hib Hdb].
  subst out. unfold buildSTRMFrontendComponents. rewrite Hcfg, Hr. fold base.
  destruct (mkdir base w) as [e|w1] eqn:E; [done|].
  apply mkdir_inv in E as [_ ->]. rewrite HD.
  assert (Hpages : pages D =
    [ {| path := "/" +:+ pl; componentName := titleCase n;
         componentPath := titleCase pl +:+ "/Index" |};
      {| path := "/" +:+ pl +:+ "/:id"; componentName := titleCase n +:+ "Detail";
         componentPath := titleCase pl +:+ "/" +:+ titleCase n |} ]).
  { subst D. unfold buildSTRMModule. fold n pl. by rewrite Hflag. }
  rewrite Hpages. cbn [writePages componentPath componentName].
  change (titleCase pl +:+ "/Index") with (titleCase pl +:+ ("/" +:+ "Index")).
  rewrite <- append_assoc, includes_suffix. fold index.
  destruct (writeFile index _ _) as [e|w2] eqn:E1; [done|].
  apply writeFile_inv in E1 as [m1 ->].
  destruct (JS.includes "Index" (titleCase pl +:+ "/" +:+ titleCase n)).
  - fold index. destruct (writeFile index _ _) as [e|w3] eqn:E2; [done|].
    apply writeFile_inv in E2 as [m2 ->]. simpl. intros _. split.
    + unfold contents. simpl. by rewrite lookup_insert_eq.
    + by rewrite !lookup_insert_ne.
  - fold detail. destruct (writeFile detail _ _) as [e|w3] eqn:E2; [done|].
    apply writeFile_inv in E2 as [m2 ->]. simpl. intros _. split.
    + unfold contents. simpl. by rewrite lookup_insert_ne, lookup_insert_eq.
    + unfold contents. simpl. by rewrite lookup_insert_eq.
Qed.


(** X13: the auto-import step appends and never looks at what is there: once
    it succeeded it succeeds again, and two runs for the same controller
    leave the import line twice at the end of the file. *)
Theorem X13_auto_import_line_is_repeated (n : string) (w : World) :
  let first := updateSTRMModuleRouteAutoImports n w in
  let second := updateSTRMModuleRouteAutoImports n (snd first) in
  success (fst first) = true ->
  success (fst second) = true /\
  contents (snd second) autoImportPath
  = Some (match contents w autoImportPath with
          | Some d => appendData (appendData d (autoImportData n)) (autoImportData n)
          | None => Text (autoImportData n +:+ autoImportData n)
          end).
Proof.
  intros first second H1.
  pose proof (updateSTRMModuleRouteAutoImports_spec n w) as (_ & _ & F1).
  cbv zeta in F1. fold first in F1. rewrite H1 in F1. destruct F1 as [m1 F1].
  assert (W1 : writableAt w autoImportPath = true)
    by by apply (steps_succeed_iff n emptyRegistry w).
  assert (W2 : writableAt (snd first) autoImportPath = true).
  { revert W1 H1 F1. subst first. unfold updateSTRMModuleRouteAutoImports, appendFile, writableAt.
    destruct (fs w !! autoImportPath) as [[m d|]|] eqn:E; simpl.
    - destruct (writable m) eqn:Hm; [|done]. simpl. intros _ _ _.
      by rewrite lookup_insert_eq.
    - done.
    - destruct (parentDir _ _ _); [done|]. simpl. intros _ _ _.
      by rewrite lookup_insert_eq. }
  assert (H2 : success (fst second) = true)
    by by apply (steps_succeed_iff n emptyRegistry (snd first)).
  split; [done|].
  pose proof (updateSTRMModuleRouteAutoImports_spec n (snd first)) as (_ & _ & F2).
  cbv zeta in F2. fold second in F2. rewrite H2 in F2. destruct F2 as [m2 F2].
  unfold contents at 1. rewrite F2, lookup_insert_eq. f_equal.
  unfold contents at 1. rewrite F1, lookup_insert_eq.
  by destruct (contents w autoImportPath) as [d|].
Qed.

End Frontend.

(** ** Further properties: the project check and the frontend scaffold *)

Lemma access_readable (p : fspath) (w : World) :
  access p w = inr tt <-> readableAt w p = true.
Proof.
  unfold access, readableAt.
  destruct (fs w !! p) as [[m d|]|]; [|done..].
  by destruct (readable m).
Qed.

Lemma accessAll_ok (dir : fspath) (ps : list fspath) (w : World) :
  accessAll dir ps w = inr tt
  <-> Forall (fun p => readableAt w (dir ++ p) = true) ps.
Proof.
  induction ps as [|p ps IH]; simpl; [by split|].
  destruct (access (dir ++ p) w) as [e|[]] eqn:E.
  - split; [done|]. intros H. apply Forall_cons in H as [H _].
    apply access_readable in H. congruence.
  - rewrite IH. apply access_readable in E. split.
    + intros H. by apply Forall_cons.
    + intros H. by apply Forall_cons in H as [_ H].
Qed.

Lemma accessAll_first (dir : fspath) (pre post : list fspath) (p : fspath)
  (e : string) (w : World) :
  Forall (fun q => readableAt w (dir ++ q) = true) pre ->
  access (dir ++ p) w = inl e ->
  accessAll dir (pre ++ p :: post) w = inl e.
Proof.
  intros Hpre Hp. induction Hpre as [|q pre Hq _ IH]; simpl.
  - by rewrite Hp.
  - apply access_readable in Hq. by rewrite Hq.
Qed.

Section CheckProjectFacts.
Variable JSON_parse_config : fileData -> string + STRMConfigFile.

(** X14: the project check succeeds exactly when the configuration file can
    be read and parses, and each of the twelve paths the configuration
    calls for is a directory or a readable file. *)
Theorem X14_check_succeeds_iff (projectDir : fspath) (showOutput : bool) (w : World) :
  success (checkSTRMProject JSON_parse_config projectDir showOutput w) = true
  <-> exists configData parsedConfig,
        readFile (projectDir ++ configFilePath) w = inr configData /\
        JSON_parse_config configData = inr parsedConfig /\
        Forall (fun p => readableAt w (projectDir ++ p) = true) (PATHS parsedConfig).
Proof.
  unfold checkSTRMProject.
  destruct (readFile _ w) as [e|d] eqn:Hread.
  { split; [done | by intros (? & ? & ? & _)]. }
  destruct (JSON_parse_config d) as [e|cfg] eqn:Hparse.
  { split; [done|]. intros (d' & cfg' & [= <-] & H & _). congruence. }
  pose proof (accessAll_ok projectDir (PATHS cfg) w) as Hall.
  destruct (accessAll _ _ w) as [e|[]].
  - split; [done|]. intros (d' & cfg' & [= <-] & H & HF).
    rewrite Hparse in H. injection H as <-. apply Hall in HF. done.
  - split; [|done]. intros _. exists d, cfg. split_and!; try done. by apply Hall.
Qed.

(** X15: the check stops at the first of the paths that cannot be read, in
    the order of the list, and fails with that access error as its message. *)
Theorem X15_check_reports_first_unreadable_path (projectDir : fspath)
  (showOutput : bool) (w : World) (configData : fileData) (parsedConfig : STRMConfigFile)
  (pre post : list fspath) (p : fspath) (e : string) :
  readFile (projectDir ++ configFilePath) w = inr configData ->
  JSON_parse_config configData = inr parsedConfig ->
  PATHS parsedConfig = pre ++ p :: post ->
  Forall (fun q => readableAt w (projectDir ++ q) = true) pre ->
  access (projectDir ++ p) w = inl e ->
  checkSTRMProject JSON_parse_config projectDir showOutput w
  = {| success := false; message := Some e |}.
Proof.
  intros Hread Hparse Hpaths Hpre Hp. unfold checkSTRMProject.
  rewrite Hread, Hparse, Hpaths.
  by rewrite (accessAll_first projectDir pre post p e w Hpre Hp).
Qed.

(** X16: a project that passes the check from its own directory can still
    fail to load its registry, but only because the registry path is a
    directory or its content does not parse: the path is there, and if it is
    a file it can be read. *)
Theorem X16_checked_project_registry (showOutput : bool) (w : World) :
  success (checkSTRMProject JSON_parse_config [] showOutput w) = true ->
  getSTRMModules w = None ->
  fs w !! modulesFilePath = Some Dir \/
  exists m d, fs w !! modulesFilePath = Some (File m d) /\ readable m = true /\
              JSON_parse d = None.
Proof.
  intros Hok Hnone. unfold checkSTRMProject in Hok.
  destruct (readFile _ w) as [e|d]; [done|].
  destruct (JSON_parse_config d) as [e|cfg]; [done|].
  pose proof (accessAll_ok [] (PATHS cfg) w) as Hall.
  destruct (accessAll _ _ w) as [e|[]]; [done|].
  destruct Hall as [Hall _]. specialize (Hall eq_refl).
  rewrite Forall_forall in Hall.
  assert (Hreg : readableAt w modulesFilePath = true).
  { apply (Hall modulesFilePath). unfold PATHS, modulesFilePath. set_solver. }
  unfold readableAt in Hreg. unfold getSTRMModules, readFile in Hnone.
  destruct (fs w !! modulesFilePath) as [[m d'|]|]; [|by left|done].
  rewrite Hreg in Hnone. right. by exists m, d'.
Qed.

End CheckProjectFacts.

Section ScaffoldFrontendFacts.
Variable setupBaseFrontend : fspath -> LoggerMode -> World -> (string + ScaffoldOutput) * World.
Variable setupFrontend : FrontendOpt -> LoggerMode -> World -> (string + ScaffoldOutput) * World.
Variable copyFrontendTemplates :
  fspath -> FrontendOpt -> LoggerMode -> World -> (string + ScaffoldOutput) * World.
Variable SUCCESS_INSTALL_FE_DEPS : string.

(** X17: the frontend scaffold succeeds exactly when the base set-up, the
    set-up of the chosen frontend and the template copy, run in this order
    each on the world the one before left, all return a success; the message
    is then the constant followed by a space and the frontend's name. *)
Theorem X17_scaffoldFrontend_succeeds_iff (scaffoldOptions : ScaffoldOpts) (w : World) :
  let out :=
    scaffoldFrontend setupBaseFrontend setupFrontend copyFrontendTemplates
      SUCCESS_INSTALL_FE_DEPS scaffoldOptions w in
  let f := Opts.frontend scaffoldOptions in
  let lm := Opts.loggerMode scaffoldOptions in
  success (fst out) = true
  <-> exists o1 w1 o2 w2 o3,
        setupBaseFrontend [] lm w = (inr o1, w1) /\ success o1 = true /\
        setupFrontend f lm w1 = (inr o2, w2) /\ success o2 = true /\
        copyFrontendTemplates [] f lm w2 = (inr o3, snd out) /\ success o3 = true /\
        message (fst out) = Some (SUCCESS_INSTALL_FE_DEPS +:+ " " +:+ frontendName f).
Proof.
  intros out f lm. subst out. unfold scaffoldFrontend. fold f lm.
  destruct (setupBaseFrontend [] lm w) as [[e1|o1] w1] eqn:E1.
  { split; [done | by intros (? & ? & ? & ? & ? & ? & _)]. }
  destruct (success o1) eqn:S1; simpl.
  2: { split; [done|]. intros (? & ? & ? & ? & ? & [= <- <-] & ? & _). congruence. }
  destruct (setupFrontend f lm w1) as [[e2|o2] w2] eqn:E2.
  { split; [done|]. intros (? & ? & ? & ? & ? & [= <- <-] & _ & H & _).
    rewrite E2 in H. done. }
  destruct (success o2) eqn:S2; simpl.
  2: { split; [done|]. intros (? & ? & ? & ? & ? & [= <- <-] & _ & H & ? & _).
       rewrite E2 in H. injection H as <- <-. congruence. }
  destruct (copyFrontendTemplates [] f lm w2) as [[e3|o3] w3] eqn:E3.
  { split; [done|]. intros (? & ? & ? & ? & ? & [= <- <-] & _ & H & _ & H3 & _).
    rewrite E2 in H. injection H as <- <-. simpl in H3. rewrite E3 in H3. done. }
  destruct (success o3) eqn:S3; simpl.
  2: { split; [done|]. intros (? & ? & ? & ? & ? & [= <- <-] & _ & H & _ & H3 & ? & _).
       rewrite E2 in H. injection H as <- <-. simpl in H3. rewrite E3 in H3.
       injection H3 as <-. congruence. }
  split; [|done]. intros _. exists o1, w1, o2, w2, o3. by split_and!.
Qed.

End ScaffoldFrontendFacts.

(** X18: a registry written by [writeSTRMModulesFile] loads again as the
    registry that was passed, with the new stamp, except when the file was
    there with write permission but without read permission: then the write
    succeeds and the load that follows fails. *)
Theorem X18_registry_write_then_load (r : STRMModulesFile) (w : World) :
  let step := writeSTRMModulesFile r w in
  let stamped := setLastUpdated r (toISOString (clock w (reads w))) in
  success (fst step) = true ->
  getSTRMModules (snd step)
  = match fs w !! modulesFilePath with
    | Some (File m _) => if readable m then Some stamped else None
    | _ => Some stamped
    end.
Proof.
  intros step stamped. subst step. unfold writeSTRMModulesFile, newDate, writeFile.
  cbn [fst snd fs]. fold stamped.
  destruct (fs w !! modulesFilePath) as [[m d|]|] eqn:E; cbn [fst snd].
  - destruct (writable m); [|done]. intros _.
    unfold getSTRMModules, readFile. cbn [fst snd fs withFs].
    rewrite lookup_insert_eq. by destruct (readable m).
  - done.
  - destruct (parentDir _ _ _); [done|]. intros _.
    unfold getSTRMModules, readFile. cbn [fst snd fs withFs].
    by rewrite lookup_insert_eq.
Qed.


(** ** The further properties on the sample project *)


Lemma X5_install_string_witness :
  let packages := [("prettier", "3.0.0"); ("@types/node", "20.1.0")] in
  NoDup (JS.keys packages) /\
  installString packages = "prettier@3.0.0 @types/node@20.1.0".
Proof.
  assert (H1 : NoDup (JS.keys [("prettier", "3.0.0"); ("@types/node", "20.1.0")]))
    by (apply (bool_decide_unpack _); vm_compute; reflexivity).
  pose proof (X5_install_string [("prettier", "3.0.0"); ("@types/node", "20.1.0")] H1) as H.
  split; [exact H1|]. vm_compute in H |- *. exact H.
Defined.

Lemma X8_touches_only_its_targets_witness :
  let out := createSTRMModule (ext := sampleExternals) categoryArgs bookProject in
  success (fst out) = true /\
  fs (snd out) !! ["strm_models"; "book.py"] = fs bookProject !! ["strm_models"; "book.py"] /\
  fs (snd out) !! ["app.py"] = None.
Proof.
  pose proof (X8_createSTRMModule_touches_only_its_targets (ext := sampleExternals)
                categoryArgs bookProject ["strm_models"; "book.py"]) as H.
  pose proof (X8_createSTRMModule_touches_only_its_targets (ext := sampleExternals)
                categoryArgs bookProject ["app.py"]) as H'.
  cbv zeta in H, H'.
  specialize (H ltac:(apply (bool_decide_unpack _); vm_compute; reflexivity)
                ltac:(intros cfg f; split; discriminate)).
  specialize (H' ltac:(apply (bool_decide_unpack _); vm_compute; reflexivity)
                 ltac:(intros cfg f; split; discriminate)).
  split; [vm_compute; reflexivity|]. split; [exact H|].
  rewrite H'. vm_compute. reflexivity.
Defined.


Lemma X10_success_leaves_every_artifact_witness :
  let w := project emptyRegistry dayClock in
  let out := createSTRMModule (ext := sampleExternals) bookArgs w in
  success (fst out) = true /\
  exists r cfg date,
    let stamped :=
      setLastUpdated
        (setModule r "book" (buildSTRMModule (ext := sampleExternals) bookArgs))
        "2026-11-03T10:15:30.000Z" in
    getSTRMModules w = Some r /\
    getSTRMModules (snd out) = Some stamped /\
    contents (snd out) routesFilePath
    = Some (Text (routesString "STORM Stack" date (controllerRoutesString stamped))) /\
    contents (snd out) autoImportPath
    = Some (Text ("from .book_controller import BookController" +:+ nl)) /\
    fs w !! feBasePath (ext := sampleExternals) cfg (pluralizedName bookArgs) = None /\
    fs (snd out) !! feBasePath (ext := sampleExternals) cfg (pluralizedName bookArgs)
    = Some Dir.
Proof.
  assert (Hok : success (fst (createSTRMModule (ext := sampleExternals) bookArgs
                                (project emptyRegistry dayClock))) = true)
    by (vm_compute; reflexivity).
  destruct (X10_success_leaves_every_artifact (ext := sampleExternals) bookArgs
              (project emptyRegistry dayClock) Hok)
    as (r & cfg & date & H1 & H2 & H3 & H4 & H5 & H6).
  split; [exact Hok|]. exists r, cfg, date.
  split; [exact H1|]. split; [exact H2|]. split; [exact H3|].
  split; [|split; [exact H5 | exact H6]].
  vm_compute in H4 |- *. exact H4.
Defined.

Lemma X11_pages_and_the_word_index_witness :
  let out := buildSTRMFrontendComponents (ext := sampleExternals) "index" "indexs"
               indexProject in
  success (fst out) = true /\
  contents (snd out) ["strm_fe_react"; "src"; "pages"; "Indexs"; "Index.tsx"]
  = Some (Text "// react index page IndexDetail") /\
  fs (snd out) !! ["strm_fe_react"; "src"; "pages"; "Indexs"; "IndexDetail.tsx"] = None.
Proof.
  pose proof (X11_pages_and_the_word_index (ext := sampleExternals) indexArgs indexProject
                reactConfig
                (setModule emptyRegistry "index"
                   (buildSTRMModule (ext := sampleExternals) indexArgs))) as H.
  cbv zeta in H.
  specialize (H eq_refl ltac:(vm_compute; reflexivity) ltac:(vm_compute; reflexivity)
                eq_refl ltac:(vm_compute; reflexivity)).
  split; [vm_compute; reflexivity|].
  vm_compute in H |- *. exact H.
Defined.


Lemma X13_auto_import_line_witness :
  let first := updateSTRMModuleRouteAutoImports (ext := sampleExternals) "book" (project emptyRegistry dayClock) in
  let second := updateSTRMModuleRouteAutoImports (ext := sampleExternals) "book" (snd first) in
  success (fst first) = true /\
  success (fst second) = true /\
  contents (snd second) autoImportPath
  = Some (Text ("from .book_controller import BookController" +:+ nl +:+
                "from .book_controller import BookController" +:+ nl)).
Proof.
  assert (Hok : success (fst (updateSTRMModuleRouteAutoImports (ext := sampleExternals) "book"
                                (project emptyRegistry dayClock))) = true)
    by (vm_compute; reflexivity).
  destruct (X13_auto_import_line_is_repeated (ext := sampleExternals) "book" (project emptyRegistry dayClock) Hok)
    as [H1 H2].
  split; [exact Hok|]. split; [exact H1|].
  vm_compute in H2 |- *. exact H2.
Defined.

Lemma X15_check_reports_first_unreadable_path_witness :
  let w := withFs checkedProject (delete ["app.py"] checkedFs) in
  success (checkSTRMProject sampleParseConfig [] false checkedProject) = true /\
  readableAt w ["templates"; "app.html"] = true /\
  readableAt w ["app.py"] = false /\
  readableAt w ["vite.config.ts"] = true /\
  checkSTRMProject sampleParseConfig [] false w
  = {| success := false;
       message := Some "ENOENT: no such file or directory, access 'app.py'" |}.
Proof.
  pose proof (X15_check_reports_first_unreadable_path sampleParseConfig [] false
                (withFs checkedProject (delete ["app.py"] checkedFs))
                (Text "react") reactConfig
                (take 9 (PATHS reactConfig)) (drop 10 (PATHS reactConfig)) ["app.py"]
                "ENOENT: no such file or directory, access 'app.py'") as H.
  specialize (H ltac:(vm_compute; reflexivity) eq_refl ltac:(vm_compute; reflexivity)
                ltac:(apply (bool_decide_unpack _); vm_compute; reflexivity)
                ltac:(vm_compute; reflexivity)).
  split; [vm_compute; reflexivity|]. split; [vm_compute; reflexivity|].
  split; [vm_compute; reflexivity|]. split; [vm_compute; reflexivity|]. exact H.
Defined.

Lemma X16_checked_project_registry_witness :
  let w := withFs checkedProject (<[modulesFilePath := Dir]> checkedFs) in
  success (checkSTRMProject sampleParseConfig [] false w) = true /\
  getSTRMModules w = None /\
  fs w !! modulesFilePath = Some Dir.
Proof.
  assert (H1 : success (checkSTRMProject sampleParseConfig [] false
                          (withFs checkedProject (<[modulesFilePath := Dir]> checkedFs)))
               = true) by (vm_compute; reflexivity).
  assert (H2 : getSTRMModules (withFs checkedProject (<[modulesFilePath := Dir]> checkedFs))
               = None) by (vm_compute; reflexivity).
  destruct (X16_checked_project_registry sampleParseConfig false _ H1 H2)
    as [H | (m & d & H & _)].
  - split; [exact H1|]. split; [exact H2 | exact H].
  - split; [exact H1|]. split; [exact H2|]. vm_compute. reflexivity.
Defined.

Lemma X18_registry_write_then_load_witness :
  let writeOnly := {| readable := false; writable := true |} in
  let w := withFs (project emptyRegistry dayClock)
             (<[modulesFilePath := File writeOnly (JSON_stringify emptyRegistry)]>
                (projectFs emptyRegistry)) in
  success (fst (writeSTRMModulesFile bookRegistry (project emptyRegistry dayClock))) = true /\
  getSTRMModules (snd (writeSTRMModulesFile bookRegistry (project emptyRegistry dayClock)))
  = Some bookRegistryOnDisk /\
  success (fst (writeSTRMModulesFile bookRegistry w)) = true /\
  getSTRMModules (snd (writeSTRMModulesFile bookRegistry w)) = None.
Proof.
  pose proof (X18_registry_write_then_load bookRegistry (project emptyRegistry dayClock)) as H.
  pose proof (X18_registry_write_then_load bookRegistry
                (withFs (project emptyRegistry dayClock)
                   (<[modulesFilePath :=
                        File {| readable := false; writable := true |}
                          (JSON_stringify emptyRegistry)]>
                      (projectFs emptyRegistry)))) as H'.
  cbv zeta in H, H'.
  specialize (H ltac:(vm_compute; reflexivity)).
  specialize (H' ltac:(vm_compute; reflexivity)).
  split; [vm_compute; reflexivity|]. split; [vm_compute in H |- *; exact H|].
  split; [vm_compute; reflexivity|]. vm_compute in H' |- *. exact H'.
Defined.
